(** * opennexus: the Python bootstrap launcher

    A shallow embedding of [wrappers/python/opennexus/src/opennexus/__init__.py]
    and the properties of its locate / provision / exec pipeline.

    The module reads its surroundings (argument vector, environment
    variables, platform names, [shutil.which], [realpath], the HTTP answer)
    and changes a file system, a network log and the diagnostic stream.  The
    surroundings are a record [Host], fixed for one run; what the run changes is
    a record [State] threaded through an exception-and-state monad [Py]. *)

From Stdlib Require Import Ascii.
From stdpp Require Import gmap strings list fin_maps pretty.

Local Open Scope Z_scope.
Local Open Scope string_scope.
Local Open Scope list_scope.

(** ** Strings, as the module uses them *)

Module Str.

(** [str.lower] on the ASCII range, the range of the names [platform]
    reports and the table holds. *)
Definition lower_ascii (c : ascii) : ascii :=
  let n := Ascii.N_of_ascii c in
  if ((65 <=? n) && (n <=? 90))%N then Ascii.ascii_of_N (n + 32) else c.

Fixpoint lower (s : string) : string :=
  match s with
  | EmptyString => EmptyString
  | String c s' => String (lower_ascii c) (lower s')
  end.

(** [s.endswith(suffix)]: some tail of [s] is [suffix]. *)
Fixpoint endswith (s suffix : string) : bool :=
  String.eqb s suffix
  || match s with
     | EmptyString => false
     | String _ s' => endswith s' suffix
     end.

(** [s.split("/")]. *)
Fixpoint split_slash (s : string) : list string :=
  match s with
  | EmptyString => [EmptyString]
  | String c s' =>
      if Ascii.eqb c "/"%char then EmptyString :: split_slash s'
      else match split_slash s' with
           | [] => [String c EmptyString]
           | w :: ws => String c w :: ws
           end
  end.

(** [sep.join(words)] for the separator ["/"]. *)
Fixpoint join_slash (words : list string) : string :=
  match words with
  | [] => ""
  | [w] => w
  | w :: ws => w +:+ "/" +:+ join_slash ws
  end.

(** Truthiness of a string: [if s:]. *)
Definition truthy (s : string) : bool := negb (String.eqb s "").

End Str.

(** ** [pathlib] paths (POSIX flavour)

    A path is its root (the empty string, ["/"] or ["//"]) and its components.
    Parsing drops empty and ["."] components and keeps [".."], as [pathlib]
    does; joining a segment that has a root of its own replaces the path. *)

Record Path := MkPath { root : string; parts : list string }.

#[global] Instance Path_eq_dec : EqDecision Path.
Proof. solve_decision. Defined.

Module PurePath.

(** [posixpath.splitroot]: one leading slash, or three and more, give the
    root ["/"]; exactly two give ["//"]. *)
Definition splitroot (s : string) : string * string :=
  match s with
  | String "/"%char (String "/"%char (String "/"%char r)) => ("/", "//" +:+ r)
  | String "/"%char (String "/"%char r) => ("//", r)
  | String "/"%char r => ("/", r)
  | _ => ("", s)
  end.

Definition keep_component (c : string) : bool :=
  negb (String.eqb c "") && negb (String.eqb c ".").

Definition components (rel : string) : list string :=
  List.filter keep_component (Str.split_slash rel).

(** [Path(s)]. *)
Definition of_string (s : string) : Path :=
  let '(r, rel) := splitroot s in MkPath r (components rel).

(** [p / segment]. *)
Definition joinpath (p : Path) (segment : string) : Path :=
  let q := of_string segment in
  if Str.truthy (root q) then q else MkPath (root p) (parts p ++ parts q).

(** [str(p)]. *)
Definition to_string (p : Path) : string :=
  match parts p with
  | [] => if Str.truthy (root p) then root p else "."
  | _ => root p +:+ Str.join_slash (parts p)
  end.

(** A segment that is one plain component: joining it appends it. *)
Definition plain_component (s : string) : Prop :=
  of_string s = MkPath "" [s].

End PurePath.

Infix "</>" := PurePath.joinpath (at level 40, left associativity).

(** ** Exceptions and results *)

Inductive Errno := ENOENT | ENOTDIR | EEXIST | EISDIR | EACCES.

Inductive Exn :=
| RuntimeError (msg : string)
| IndexError
| OSError (e : Errno)
| URLError (reason : string)
| HTTPError (code : Z).   (* urllib.error.HTTPError; its other fields are left out *)

Inductive Result (A : Type) :=
| Ok (a : A)
| Raise (e : Exn).
Arguments Ok {A} a.
Arguments Raise {A} e.

(** ** The file system

    A tree without links, stored as a finite map from the canonical location
    of an entry (its component list from the root) to the entry.  The root
    directory always exists.  The running process owns every entry and is not
    the superuser, so the owner bits of a file's mode decide its access. *)

Inductive Node :=
| File (data : list Byte.byte) (mode : Z)
| Dir.

Module FS.

Definition get (fs : gmap (list string) Node) (loc : list string) : option Node :=
  match loc with
  | [] => Some Dir
  | _ => fs !! loc
  end.

(** One component of a lookup: [".."] goes to the parent directory (the
    root is its own parent), a name goes to the entry of that name. *)
Definition step_into (cur : list string) (name : string) : list string :=
  if String.eqb name ".." then removelast cur else cur ++ [name].

(** Follow [names] from the directory at [cur]: every component is looked
    up in a directory that exists. *)
Fixpoint walk (fs : gmap (list string) Node) (cur : list string) (names : list string)
  : Errno + list string :=
  match names with
  | [] => inr cur
  | n :: ns =>
      match get fs cur with
      | Some Dir => walk fs (step_into cur n) ns
      | Some (File _ _) => inl ENOTDIR
      | None => inl ENOENT
      end
  end.

(** Location named by a path, relative paths starting at [cwd]. *)
Definition locate (cwd : list string) (fs : gmap (list string) Node) (p : Path)
  : Errno + list string :=
  walk fs (if Str.truthy (root p) then [] else cwd) (parts p).

(** [os.stat]. *)
Definition stat (cwd : list string) (fs : gmap (list string) Node) (p : Path)
  : Errno + Node :=
  match locate cwd fs p with
  | inl e => inl e
  | inr loc => match get fs loc with
               | Some n => inr n
               | None => inl ENOENT
               end
  end.

(** Location of the directory that holds the last component of a path,
    with that component; [None] for a path without components. *)
Definition locate_parent (cwd : list string) (fs : gmap (list string) Node) (p : Path)
  : option (Errno + list string * string) :=
  match rev (parts p) with
  | [] => None
  | last :: rinit =>
      Some match walk fs (if Str.truthy (root p) then [] else cwd) (rev rinit) with
           | inl e => inl e
           | inr dir =>
               match get fs dir with
               | Some Dir => inr (dir, last)
               | Some (File _ _) => inl ENOTDIR
               | None => inl ENOENT
               end
           end
  end.

(** [os.mkdir]: the parent must be a directory and the name must be free. *)
Definition os_mkdir (cwd : list string) (p : Path) (fs : gmap (list string) Node)
  : Errno + gmap (list string) Node :=
  match locate_parent cwd fs p with
  | None => inl EEXIST
  | Some (inl e) => inl e
  | Some (inr (dir, last)) =>
      if String.eqb last ".." then inl EEXIST
      else match get fs (dir ++ [last]) with
           | Some _ => inl EEXIST
           | None => inr (<[dir ++ [last] := Dir]> fs)
           end
  end.

Definition is_dir (cwd : list string) (fs : gmap (list string) Node) (p : Path) : bool :=
  match stat cwd fs p with
  | inr Dir => true
  | _ => false
  end.

(** [Path.mkdir(parents=False, exist_ok=True)]. *)
Definition mkdir_exist_ok (cwd : list string) (p : Path) (fs : gmap (list string) Node)
  : Errno + gmap (list string) Node :=
  match os_mkdir cwd p fs with
  | inr fs' => inr fs'
  | inl ENOENT => inl ENOENT
  | inl e => if is_dir cwd fs p then inr fs else inl e
  end.

(** [Path.mkdir(parents=True, exist_ok=True)] on the path with root [r] and
    components [rev rparts]: try [os.mkdir]; when the parent is missing,
    make the parent the same way and try again; any other failure is
    accepted when the path is a directory already. *)
Fixpoint mkdir_parents_rev (cwd : list string) (r : string) (rparts : list string)
    (fs : gmap (list string) Node) : Errno + gmap (list string) Node :=
  let p := MkPath r (rev rparts) in
  match os_mkdir cwd p fs with
  | inr fs' => inr fs'
  | inl ENOENT =>
      match rparts with
      | [] => inl ENOENT
      | _ :: rparent =>
          match mkdir_parents_rev cwd r rparent fs with
          | inl e => inl e
          | inr fs1 => mkdir_exist_ok cwd p fs1
          end
      end
  | inl e => if is_dir cwd fs p then inr fs else inl e
  end.

Definition mkdir_parents (cwd : list string) (p : Path) (fs : gmap (list string) Node)
  : Errno + gmap (list string) Node :=
  mkdir_parents_rev cwd (root p) (rev (parts p)) fs.

(** Owner bits of a mode. *)
Definition owner_x (mode : Z) : bool := Z.testbit mode 6.   (* 0o100 *)
Definition owner_w (mode : Z) : bool := Z.testbit mode 7.   (* 0o200 *)

(** [Path.write_bytes]: open for writing, truncating; a new file gets the
    mode [0o666 & ~umask], an existing one keeps its mode. *)
Definition write_bytes (cwd : list string) (umask : Z) (p : Path) (data : list Byte.byte)
    (fs : gmap (list string) Node) : Errno + gmap (list string) Node :=
  match locate_parent cwd fs p with
  | None => inl EISDIR
  | Some (inl e) => inl e
  | Some (inr (dir, last)) =>
      if String.eqb last ".." then inl EISDIR
      else match get fs (dir ++ [last]) with
           | Some Dir => inl EISDIR
           | Some (File _ mode) =>
               if owner_w mode then inr (<[dir ++ [last] := File data mode]> fs)
               else inl EACCES
           | None => inr (<[dir ++ [last] := File data (Z.ldiff 438 umask)]> fs)
           end
  end.

(** [Path.chmod]. Directories carry no mode in this model. *)
Definition chmod (cwd : list string) (p : Path) (mode : Z) (fs : gmap (list string) Node)
  : Errno + gmap (list string) Node :=
  match locate cwd fs p with
  | inl e => inl e
  | inr loc =>
      match get fs loc with
      | None => inl ENOENT
      | Some Dir => inr fs
      | Some (File data _) => inr (<[loc := File data mode]> fs)
      end
  end.

(** Files keep their mode from one tree to the next. *)
Definition keeps_modes (tree tree' : gmap (list string) Node) : Prop :=
  ∀ loc data mode, tree !! loc = Some (File data mode) →
    ∃ data', tree' !! loc = Some (File data' mode).

(** Files are the same from one tree to the next. *)
Definition keeps_files (tree tree' : gmap (list string) Node) : Prop :=
  ∀ loc data mode, tree !! loc = Some (File data mode) →
    tree' !! loc = Some (File data mode).

End FS.

(** ** The host and the state of a run *)

(** What the transport gets for a request: the answer that ends it (the
    last one, when [urllib] follows redirects), or an exception of the
    transport itself (no connection, a bad URL). *)
Inductive HttpOutcome :=
| Response (status : Z) (body : list Byte.byte)
| UrlopenRaises (e : Exn).

(** The statuses [urllib]'s [HTTPErrorProcessor] lets through:
    [200 <= code < 300]. *)
Definition http_success (status : Z) : bool :=
  ((200 <=? status) && (status <? 300))%Z.

Record Host := {
  argv : list string;                        (* sys.argv *)
  environ : gmap string string;              (* os.environ *)
  os_name : string;                          (* os.name *)
  platform_system : string;                  (* platform.system() *)
  platform_machine : string;                 (* platform.machine() *)
  package_version : string → option string;  (* importlib.metadata.version; None: PackageNotFoundError *)
  home_dir : string;                         (* the directory Path.home() is built from *)
  getcwd : list string;                      (* location of the working directory *)
  umask : Z;
  shutil_which : string → option string;     (* shutil.which *)
  realpath : string → option string;         (* os.path.realpath; None: OSError *)
  urlopen_outcome : string → HttpOutcome;    (* what urllib.request.urlopen gets for a URL *)
}.

Record State := MkState {
  fs : gmap (list string) Node;
  requests : list string;     (* URLs fetched, oldest first *)
  stderr : list string;       (* lines printed to sys.stderr, oldest first *)
}.

(** ** The monad of the module's functions: state, and exceptions that keep
    the state reached when they are raised. *)

Definition Py (A : Type) : Type := State → Result A * State.

#[global] Instance Py_ret : MRet Py := λ A a st, (Ok a, st).
#[global] Instance Py_bind : MBind Py := λ A B f m st,
  match m st with
  | (Ok a, st') => f a st'
  | (Raise e, st') => (Raise e, st')
  end.

Definition raise {A} (e : Exn) : Py A := λ st, (Raise e, st).

(** A computation that reads the file system. *)
Definition read_fs {A} (f : gmap (list string) Node → A) : Py A :=
  λ st, (Ok (f (fs st)), st).

(** A file-system call: the new tree, or [OSError]. *)
Definition update_fs (f : gmap (list string) Node → Errno + gmap (list string) Node) : Py unit :=
  λ st, match f (fs st) with
        | inr fs' => (Ok tt, MkState fs' (requests st) (stderr st))
        | inl e => (Raise (OSError e), st)
        end.

(** A pure computation that may raise. *)
Definition lift_result {A} (r : Result A) : Py A := λ st, (r, st).

(** ** The module *)

(** What a run ends in: [os.execv] called with a binary and an argument
    vector, or an exception nobody caught. *)
Inductive Outcome :=
| Exec (binary : Path) (args : list string)
| Uncaught (e : Exn).

(** The platform table of [_resolve_target]. *)
Definition targets : gmap (string * string) (string * string) :=
  list_to_map [
    (("darwin", "arm64"), ("aarch64-apple-darwin", "opennexus"));
    (("darwin", "x86_64"), ("x86_64-apple-darwin", "opennexus"));
    (("linux", "x86_64"), ("x86_64-unknown-linux-gnu", "opennexus"));
    (("linux", "aarch64"), ("aarch64-unknown-linux-gnu", "opennexus"));
    (("windows", "amd64"), ("x86_64-pc-windows-msvc", "opennexus.exe"))
  ].

(** [value] when it is a non-empty string: the test [if value:] on the
    result of [os.environ.get]. *)
Definition if_truthy (value : option string) : option string :=
  match value with
  | Some s => if Str.truthy s then Some s else None
  | None => None
  end.

Section Launcher.

Variable host : Host.

Definition VERSION : string :=
  match package_version host "opennexus" with
  | Some v => v
  | None => "0.1.5"
  end.

Definition RELEASE_BASE_URL : string :=
  match environ host !! "OPENNEXUS_RELEASE_BASE_URL" with
  | Some url => url
  | None => "https://github.com/Alpha-Innovation-Labs/opennexus/releases/download/v" +:+ VERSION
  end.

(** [Path.home()]. *)
Definition home : Path := PurePath.of_string (home_dir host).

(** [p.resolve()]: [None] stands for [OSError]; a call that raises anything
    else is outside the model. *)
Definition resolve (p : Path) : option Path :=
  PurePath.of_string <$> realpath host (PurePath.to_string p).

Definition path_exists (tree : gmap (list string) Node) (p : Path) : bool :=
  match FS.stat (getcwd host) tree p with
  | inr _ => true
  | inl _ => false
  end.

Definition is_file (tree : gmap (list string) Node) (p : Path) : bool :=
  match FS.stat (getcwd host) tree p with
  | inr (File _ _) => true
  | _ => false
  end.

(** [os.access(p, os.X_OK)]. *)
Definition access_X_OK (tree : gmap (list string) Node) (p : Path) : bool :=
  match FS.stat (getcwd host) tree p with
  | inr (File _ mode) => FS.owner_x mode
  | inr Dir => true
  | inl _ => false
  end.

(** [urllib.request.urlopen(url)]: one request.  An answer whose status is
    in [200..299] is the response; for any other status the default opener
    raises [HTTPError] with the status; an exception of the transport is
    raised as it is. *)
Definition urlopen (url : string) : Py (Z * list Byte.byte) :=
  λ st,
    let st' := MkState (fs st) (requests st ++ [url]) (stderr st) in
    match urlopen_outcome host url with
    | Response status body =>
        if http_success status then (Ok (status, body), st')
        else (Raise (HTTPError status), st')
    | UrlopenRaises e => (Raise e, st')
    end.

(** [print(line, file=sys.stderr)]. *)
Definition print_stderr (line : string) : Py unit :=
  λ st, (Ok tt, MkState (fs st) (requests st) (stderr st ++ [line])).

Definition _same_file (first second : Path) : bool :=
  match resolve first with
  | None => false
  | Some a =>
      match resolve second with
      | None => false
      | Some b => bool_decide (a = b)
      end
  end.

(** Two paths that resolve, and to the same canonical path. *)
Definition same_canonical_file (first second : Path) : Prop :=
  ∃ canonical, resolve first = Some canonical ∧ resolve second = Some canonical.

Definition cargo_binary : Path := home </> ".cargo" </> "bin" </> "opennexus".

Definition _find_installed_binary : Py (option Path) :=
  match argv host with
  | [] => raise IndexError
  | argv0 :: _ =>
      let script_path := PurePath.of_string argv0 in
      (* the cargo test and the identity test nested in it fall through to
         the same search-path code *)
      usable ← read_fs (λ tree, path_exists tree cargo_binary
                                 && is_file tree cargo_binary
                                 && access_X_OK tree cargo_binary);
      if usable && negb (_same_file cargo_binary script_path)
      then mret (Some cargo_binary)
      else
        match if_truthy (shutil_which host "opennexus") with
        | None => mret None
        | Some located =>
            let located_path := PurePath.of_string located in
            if _same_file located_path script_path then mret None
            else mret (Some located_path)
        end
  end.

Definition _resolve_target : Result (string * string) :=
  let system := Str.lower (platform_system host) in
  let machine := Str.lower (platform_machine host) in
  match targets !! (system, machine) with
  | None => Raise (RuntimeError ("Unsupported platform: " +:+ system +:+ "/" +:+ machine))
  | Some target => Ok target
  end.

Definition _cache_root : Path :=
  if String.eqb (os_name host) "nt" then
    match if_truthy (environ host !! "LOCALAPPDATA") with
    | Some local => PurePath.of_string local
    | None => home </> "AppData" </> "Local"
    end
  else
    match if_truthy (environ host !! "XDG_CACHE_HOME") with
    | Some xdg => PurePath.of_string xdg
    | None => home </> ".cache"
    end.

Definition _download (url : string) (destination : Path) : Py unit :=
  response ← urlopen url;
  if bool_decide (response.1 ≠ 200)
  then raise (RuntimeError ("Download failed (" +:+ pretty response.1 +:+ ") for " +:+ url))
  else update_fs (FS.write_bytes (getcwd host) (umask host) destination response.2).

(** Lines 92 and 94 of the source: the install directory and the binary
    path below it. *)
Definition install_dir_of (cache_root : Path) (version : string) (target_triple : string) : Path :=
  cache_root </> "opennexus" </> "bin" </> version </> target_triple.

Definition binary_path_of (cache_root : Path) (version : string) (target : string * string) : Path :=
  install_dir_of cache_root version target.1 </> target.2.

Definition asset_name_of (target : string * string) : string :=
  "opennexus-" +:+ target.1 +:+ (if Str.endswith target.2 ".exe" then ".exe" else "").

Definition asset_url_of (target : string * string) : string :=
  RELEASE_BASE_URL +:+ "/" +:+ asset_name_of target.

Definition progress_notice (target_triple : string) : string :=
  "`opennexus` binary not found in PATH. Downloading " +:+ VERSION
    +:+ " for " +:+ target_triple +:+ "...".

Definition _ensure_managed_binary : Py Path :=
  target ← lift_result _resolve_target;
  let install_dir := install_dir_of _cache_root VERSION target.1 in
  update_fs (FS.mkdir_parents (getcwd host) install_dir);;
  let binary_path := install_dir </> target.2 in
  cached ← read_fs (λ tree, path_exists tree binary_path && access_X_OK tree binary_path);
  if cached : bool then mret binary_path
  else
    print_stderr (progress_notice target.1);;
    _download (asset_url_of target) binary_path;;
    (if negb (String.eqb (os_name host) "nt")
     then update_fs (FS.chmod (getcwd host) binary_path 493)   (* 0o755 *)
     else mret tt);;
    mret binary_path.

(** [binary = _find_installed_binary()], then the fallback of [main]. *)
Definition resolve_binary : Py Path :=
  binary ← _find_installed_binary;
  match binary with
  | Some found => mret found
  | None => _ensure_managed_binary
  end.

Definition main (st : State) : Outcome * State :=
  let args := "opennexus" :: drop 1 (argv host) in
  match resolve_binary st with
  | (Ok binary, st') => (Exec binary args, st')
  | (Raise e, st') => (Uncaught e, st')
  end.

End Launcher.

(** ** Sample hosts and states, for running the module *)

Module Sample.

(** Linux on x86_64, launched as [/usr/local/bin/opennexus --version], the
    launcher being the only [opennexus] on the search path. *)
Definition linux : Host := {|
  argv := ["/usr/local/bin/opennexus"; "--version"];
  environ := {[ "XDG_CACHE_HOME" := "/var/cache" ]};
  os_name := "posix";
  platform_system := "Linux";
  platform_machine := "x86_64";
  package_version := λ _, Some "0.2.0";
  home_dir := "/home/u";
  getcwd := ["home"; "u"];
  umask := 18;   (* 0o022 *)
  shutil_which := λ _, Some "/usr/local/bin/opennexus";
  realpath := λ s, Some s;
  urlopen_outcome := λ _, Response 200 [Byte.x7f; Byte.x45; Byte.x4c; Byte.x46];
|}.

(** The same machine with another command line and working directory, and
    a server that answers 404. *)
Definition linux_other : Host := {|
  argv := ["opennexus"; "run"; "--fast"];
  environ := {[ "XDG_CACHE_HOME" := "/var/cache"; "LANG" := "C" ]};
  os_name := "posix";
  platform_system := "Linux";
  platform_machine := "x86_64";
  package_version := λ _, Some "0.2.0";
  home_dir := "/root";
  getcwd := ["tmp"];
  umask := 63;   (* 0o077 *)
  shutil_which := λ _, None;
  realpath := λ _, None;
  urlopen_outcome := λ _, Response 404 [];
|}.

(** Windows on amd64, with the three environment variables set to the
    empty string. *)
Definition windows : Host := {|
  argv := ["opennexus"];
  environ := {[ "LOCALAPPDATA" := ""; "XDG_CACHE_HOME" := "";
                "OPENNEXUS_RELEASE_BASE_URL" := "" ]};
  os_name := "nt";
  platform_system := "Windows";
  platform_machine := "AMD64";
  package_version := λ _, None;
  home_dir := "/Users/u";
  getcwd := ["Users"; "u"];
  umask := 0;
  shutil_which := λ _, None;
  realpath := λ s, Some s;
  urlopen_outcome := λ _, Response 200 [Byte.x4d; Byte.x5a];
|}.

(** A platform the table does not hold. *)
Definition solaris : Host := {|
  argv := ["opennexus"];
  environ := ∅;
  os_name := "posix";
  platform_system := "SunOS";
  platform_machine := "sun4v";
  package_version := λ _, None;
  home_dir := "/export/home/u";
  getcwd := [];
  umask := 18;
  shutil_which := λ _, None;
  realpath := λ s, Some s;
  urlopen_outcome := λ _, UrlopenRaises (URLError "unreachable");
|}.

(** A POSIX host whose [XDG_CACHE_HOME] is set to the empty string. *)
Definition posix_empty_xdg : Host := {|
  argv := ["opennexus"];
  environ := {[ "XDG_CACHE_HOME" := "" ]};
  os_name := "posix";
  platform_system := "Darwin";
  platform_machine := "arm64";
  package_version := λ _, None;
  home_dir := "/Users/u";
  getcwd := [];
  umask := 18;
  shutil_which := λ _, None;
  realpath := λ s, Some s;
  urlopen_outcome := λ _, UrlopenRaises (URLError "unreachable");
|}.

Definition empty_state : State := MkState ∅ [] [].

(** A tree in which the launcher is installed as the cargo binary too. *)
Definition cargo_tree : gmap (list string) Node :=
  list_to_map [
    (["home"], Dir); (["home"; "u"], Dir); (["home"; "u"; ".cargo"], Dir);
    (["home"; "u"; ".cargo"; "bin"], Dir);
    (["home"; "u"; ".cargo"; "bin"; "opennexus"], File [Byte.x23; Byte.x21] 493)
  ].

(** [linux], with the cargo binary and the launcher being one file. *)
Definition linux_cargo : Host := {|
  argv := ["/home/u/.cargo/bin/opennexus"; "--help"];
  environ := ∅;
  os_name := "posix";
  platform_system := "Linux";
  platform_machine := "x86_64";
  package_version := λ _, Some "0.2.0";
  home_dir := "/home/u";
  getcwd := ["home"; "u"];
  umask := 18;
  shutil_which := λ _, Some "/home/u/.cargo/bin/opennexus";
  realpath := λ s, Some s;
  urlopen_outcome := λ _, Response 200 [];
|}.

(** A tree that holds the managed binary of [linux], executable. *)
Definition cached_tree : gmap (list string) Node :=
  list_to_map [
    (["var"], Dir); (["var"; "cache"], Dir); (["var"; "cache"; "opennexus"], Dir);
    (["var"; "cache"; "opennexus"; "bin"], Dir);
    (["var"; "cache"; "opennexus"; "bin"; "0.2.0"], Dir);
    (["var"; "cache"; "opennexus"; "bin"; "0.2.0"; "x86_64-unknown-linux-gnu"], Dir);
    (["var"; "cache"; "opennexus"; "bin"; "0.2.0"; "x86_64-unknown-linux-gnu"; "opennexus"],
      File [Byte.x7f; Byte.x45] 493)
  ].

(** The directories of the managed binary of [windows], and no file. *)
Definition windows_dirs : gmap (list string) Node :=
  list_to_map [
    (["Users"], Dir); (["Users"; "u"], Dir); (["Users"; "u"; "AppData"], Dir);
    (["Users"; "u"; "AppData"; "Local"], Dir);
    (["Users"; "u"; "AppData"; "Local"; "opennexus"], Dir);
    (["Users"; "u"; "AppData"; "Local"; "opennexus"; "bin"], Dir);
    (["Users"; "u"; "AppData"; "Local"; "opennexus"; "bin"; "0.1.5"], Dir);
    (["Users"; "u"; "AppData"; "Local"; "opennexus"; "bin"; "0.1.5";
      "x86_64-pc-windows-msvc"], Dir)
  ].

(** The directories of the managed binary of [linux], and no file. *)
Definition linux_dirs : gmap (list string) Node :=
  list_to_map [
    (["var"], Dir); (["var"; "cache"], Dir); (["var"; "cache"; "opennexus"], Dir);
    (["var"; "cache"; "opennexus"; "bin"], Dir);
    (["var"; "cache"; "opennexus"; "bin"; "0.2.0"], Dir);
    (["var"; "cache"; "opennexus"; "bin"; "0.2.0"; "x86_64-unknown-linux-gnu"], Dir)
  ].

(** A tree in which the cache root of [linux] is a regular file. *)
Definition blocked_tree : gmap (list string) Node :=
  list_to_map [ (["var"], Dir); (["var"; "cache"], File [] 420) ].

(** [linux_cargo] on a machine where no path can be resolved. *)
Definition linux_unresolvable : Host := {|
  argv := ["/home/u/.cargo/bin/opennexus"; "--help"];
  environ := ∅;
  os_name := "posix";
  platform_system := "Linux";
  platform_machine := "x86_64";
  package_version := λ _, Some "0.2.0";
  home_dir := "/home/u";
  getcwd := ["home"; "u"];
  umask := 18;
  shutil_which := λ _, None;
  realpath := λ _, None;
  urlopen_outcome := λ _, Response 200 [];
|}.

(** [linux] with the real tool installed in [/opt/bin], ahead of the
    launcher on the search path. *)
Definition linux_installed : Host := {|
  argv := ["/usr/local/bin/opennexus"; "build"; "--release"];
  environ := ∅;
  os_name := "posix";
  platform_system := "Linux";
  platform_machine := "x86_64";
  package_version := λ _, Some "0.2.0";
  home_dir := "/home/u";
  getcwd := ["home"; "u"];
  umask := 18;
  shutil_which := λ _, Some "/opt/bin/opennexus";
  realpath := λ s, Some s;
  urlopen_outcome := λ _, UrlopenRaises (URLError "unreachable");
|}.

End Sample.

(** ** Facts about paths *)

Example of_string_abs :
  PurePath.of_string "/usr//local/./bin/" = MkPath "/" ["usr"; "local"; "bin"].
Proof. reflexivity. Qed.

Example of_string_two_slashes :
  PurePath.of_string "//host/share" = MkPath "//" ["host"; "share"].
Proof. reflexivity. Qed.

Example of_string_dotdot :
  PurePath.of_string "a/../b" = MkPath "" ["a"; ".."; "b"].
Proof. reflexivity. Qed.

Example joinpath_relative :
  PurePath.of_string "/home/u" </> ".cargo" </> "bin" = MkPath "/" ["home"; "u"; ".cargo"; "bin"].
Proof. reflexivity. Qed.

Example joinpath_absolute_segment :
  PurePath.of_string "/home/u" </> "/etc" = MkPath "/" ["etc"].
Proof. reflexivity. Qed.

Example lower_mixed_case : Str.lower "AMD64" = "amd64" ∧ Str.lower "Darwin" = "darwin".
Proof. split; reflexivity. Qed.

Example endswith_exe :
  Str.endswith "opennexus.exe" ".exe" = true ∧ Str.endswith "opennexus" ".exe" = false.
Proof. split; reflexivity. Qed.

Example to_string_roundtrip :
  PurePath.to_string (PurePath.of_string "/usr//local/./bin/") = "/usr/local/bin".
Proof. reflexivity. Qed.

(** Joining one plain component appends it and keeps the root. *)
Lemma joinpath_plain (p : Path) (s : string) :
  PurePath.plain_component s → p </> s = MkPath (root p) (parts p ++ [s]).
Proof.
  unfold PurePath.plain_component, PurePath.joinpath. intros ->. reflexivity.
Qed.

(** The table holds these five entries and no other. *)
Lemma targets_lookup_Some (key target : string * string) :
  targets !! key = Some target →
  (key, target) ∈ [
    (("darwin", "arm64"), ("aarch64-apple-darwin", "opennexus"));
    (("darwin", "x86_64"), ("x86_64-apple-darwin", "opennexus"));
    (("linux", "x86_64"), ("x86_64-unknown-linux-gnu", "opennexus"));
    (("linux", "aarch64"), ("aarch64-unknown-linux-gnu", "opennexus"));
    (("windows", "amd64"), ("x86_64-pc-windows-msvc", "opennexus.exe"))
  ].
Proof.
  unfold targets. intros H. by apply elem_of_list_to_map_2 in H.
Qed.

Ltac table_cases H :=
  apply targets_lookup_Some in H;
  repeat (apply elem_of_cons in H as [H | H]; [simplify_eq |]);
  [.. | by apply elem_of_nil in H].

(** Triples and binary names of the table are plain components. *)
Lemma targets_plain (key target : string * string) :
  targets !! key = Some target →
  PurePath.plain_component target.1 ∧ PurePath.plain_component target.2.
Proof.
  intros H. table_cases H; split; reflexivity.
Qed.

(** In the table, the binary name ends in [.exe] exactly for Windows. *)
Lemma targets_exe (key target : string * string) :
  targets !! key = Some target →
  Str.endswith target.2 ".exe" = bool_decide (key.1 = "windows").
Proof.
  intros H. table_cases H; reflexivity.
Qed.

(** ** Facts about the file system *)

Section FSFacts.

Variable cwd : list string.
Implicit Types (tree : gmap (list string) Node) (loc : list string) (p : Path).

Lemma get_insert tree loc loc' (n : Node) :
  loc ≠ [] →
  FS.get (<[loc := n]> tree) loc' = if decide (loc = loc') then Some n else FS.get tree loc'.
Proof.
  intros Hne. unfold FS.get. destruct loc' as [|x l'].
  - by rewrite decide_False.
  - by rewrite lookup_insert.
Qed.

Lemma snoc_not_nil loc (name : string) : loc ++ [name] ≠ [].
Proof. by destruct loc. Qed.

(** Walking one more component. *)
Lemma walk_snoc tree names : ∀ cur (name : string),
  FS.walk tree cur (names ++ [name]) =
    match FS.walk tree cur names with
    | inl e => inl e
    | inr dir =>
        match FS.get tree dir with
        | Some Dir => inr (FS.step_into dir name)
        | Some (File _ _) => inl ENOTDIR
        | None => inl ENOENT
        end
    end.
Proof.
  induction names as [|n ns IH]; intros cur name; simpl.
  - by destruct (FS.get tree cur) as [[]|].
  - destruct (FS.get tree cur) as [[]|]; auto.
Qed.

(** A walk that succeeds still succeeds, with the same result, in a tree
    that keeps every directory. *)
Lemma walk_keeps_dirs tree tree' names : ∀ cur loc,
  (∀ l, FS.get tree l = Some Dir → FS.get tree' l = Some Dir) →
  FS.walk tree cur names = inr loc →
  FS.walk tree' cur names = inr loc.
Proof.
  induction names as [|n ns IH]; intros cur loc Hdirs; simpl; [done|].
  destruct (FS.get tree cur) as [[]|] eqn:Hcur; try done.
  rewrite (Hdirs _ Hcur). by apply IH.
Qed.

(** The parent of a path that names an entry is a directory, and the entry
    is where the last component leads. *)
Lemma locate_parent_stat tree p (n : Node) :
  FS.stat cwd tree p = inr n →
  match FS.locate_parent cwd tree p with
  | None => parts p = []
  | Some (inr (dir, last)) => FS.get tree (FS.step_into dir last) = Some n
  | Some (inl _) => False
  end.
Proof.
  unfold FS.stat, FS.locate, FS.locate_parent.
  destruct (rev (parts p)) as [|last rinit] eqn:Hrev.
  - intros _. by rewrite <- (rev_involutive (parts p)), Hrev.
  - rewrite <- (rev_involutive (parts p)), Hrev. simpl. rewrite walk_snoc.
    destruct (FS.walk tree _ (rev rinit)) as [e|dir]; [done|].
    destruct (FS.get tree dir) as [[]|]; try done.
    destruct (FS.get tree (FS.step_into dir last)); by intros [= ->].
Qed.

(** [os.mkdir] on a path that names an entry fails with [EEXIST]. *)
Lemma os_mkdir_existing tree p (n : Node) :
  FS.stat cwd tree p = inr n → FS.os_mkdir cwd p tree = inl EEXIST.
Proof.
  intros Hstat. apply locate_parent_stat in Hstat. unfold FS.os_mkdir.
  destruct (FS.locate_parent cwd tree p) as [[e|[dir last]]|]; try done.
  unfold FS.step_into in Hstat.
  destruct (String.eqb last ".."); [done|]. by rewrite Hstat.
Qed.

(** One step of [mkdir(parents=True, exist_ok=True)]. *)
Lemma mkdir_parents_rev_eq (r : string) (rparts : list string) tree :
  FS.mkdir_parents_rev cwd r rparts tree =
    let p := MkPath r (rev rparts) in
    match FS.os_mkdir cwd p tree with
    | inr tree' => inr tree'
    | inl ENOENT =>
        match rparts with
        | [] => inl ENOENT
        | _ :: rparent =>
            match FS.mkdir_parents_rev cwd r rparent tree with
            | inl e => inl e
            | inr tree1 => FS.mkdir_exist_ok cwd p tree1
            end
        end
    | inl e => if FS.is_dir cwd tree p then inr tree else inl e
    end.
Proof. by destruct rparts. Qed.

(** [mkdir(parents=True, exist_ok=True)] on a directory changes nothing. *)
Lemma mkdir_parents_is_dir tree p :
  FS.is_dir cwd tree p = true → FS.mkdir_parents cwd p tree = inr tree.
Proof.
  intros Hdir. unfold FS.mkdir_parents. rewrite mkdir_parents_rev_eq.
  rewrite rev_involutive. cbv zeta.
  replace (MkPath (root p) (parts p)) with p by (by destruct p).
  assert (Hmk : FS.os_mkdir cwd p tree = inl EEXIST).
  { unfold FS.is_dir in Hdir.
    destruct (FS.stat cwd tree p) as [|n] eqn:Hstat; [done|].
    by apply os_mkdir_existing with n. }
  by rewrite Hmk, Hdir.
Qed.

(** The directory of an entry: when [p </> name] names an entry and [name]
    is a plain component, [p] is a directory. *)
Lemma is_dir_of_child tree p (name : string) (n : Node) :
  PurePath.plain_component name →
  FS.stat cwd tree (p </> name) = inr n →
  FS.is_dir cwd tree p = true.
Proof.
  intros Hplain. rewrite (joinpath_plain _ _ Hplain).
  unfold FS.is_dir, FS.stat, FS.locate. simpl. rewrite walk_snoc.
  destruct (FS.walk tree _ (parts p)) as [e|dir]; [done|].
  destruct (FS.get tree dir) as [[]|]; done.
Qed.

(** Where the last component of a path leads from its parent. *)
Lemma locate_of_parent tree p dir (last : string) :
  FS.locate_parent cwd tree p = Some (inr (dir, last)) →
  FS.locate cwd tree p = inr (FS.step_into dir last).
Proof.
  unfold FS.locate_parent, FS.locate.
  destruct (rev (parts p)) as [|l rinit] eqn:Hrev; [done|].
  rewrite <- (rev_involutive (parts p)), Hrev. simpl. rewrite walk_snoc.
  destruct (FS.walk tree _ (rev rinit)) as [e|d]; [done|].
  destruct (FS.get tree d) as [[]|]; try done.
  by intros [= -> ->].
Qed.

Lemma keeps_files_refl tree : FS.keeps_files tree tree.
Proof. by intros loc data mode. Qed.

Lemma keeps_files_trans tree1 tree2 tree3 :
  FS.keeps_files tree1 tree2 → FS.keeps_files tree2 tree3 → FS.keeps_files tree1 tree3.
Proof. intros H12 H23 loc data mode H. by apply H23, H12. Qed.

Lemma keeps_files_modes tree1 tree2 tree3 :
  FS.keeps_files tree1 tree2 → FS.keeps_modes tree2 tree3 → FS.keeps_modes tree1 tree3.
Proof. intros H12 H23 loc data mode H. by eapply H23, H12. Qed.

Lemma get_None_lookup tree loc : FS.get tree loc = None → tree !! loc = None.
Proof. by destruct loc. Qed.

Lemma os_mkdir_keeps_files tree tree' p :
  FS.os_mkdir cwd p tree = inr tree' → FS.keeps_files tree tree'.
Proof.
  unfold FS.os_mkdir.
  destruct (FS.locate_parent cwd tree p) as [[e|[dir last]]|]; try done.
  destruct (String.eqb last ".."); [done|].
  destruct (FS.get tree (dir ++ [last])) eqn:Hfree; [done|].
  intros [= <-] loc data mode Hloc. apply get_None_lookup in Hfree.
  rewrite lookup_insert_ne; [done|]. intros <-. congruence.
Qed.

Lemma mkdir_exist_ok_keeps_files tree tree' p :
  FS.mkdir_exist_ok cwd p tree = inr tree' → FS.keeps_files tree tree'.
Proof.
  unfold FS.mkdir_exist_ok.
  destruct (FS.os_mkdir cwd p tree) as [e|t] eqn:Hmk.
  - destruct e; try done;
      (destruct (FS.is_dir cwd tree p); [|done]); intros [= <-];
      apply keeps_files_refl.
  - intros [= <-]. by apply os_mkdir_keeps_files with p.
Qed.

(** Making directories leaves every file as it is. *)
Lemma mkdir_parents_rev_keeps_files (r : string) (rparts : list string) :
  ∀ tree tree', FS.mkdir_parents_rev cwd r rparts tree = inr tree' →
    FS.keeps_files tree tree'.
Proof.
  induction rparts as [|last rparent IH]; intros tree tree';
    rewrite mkdir_parents_rev_eq; cbv zeta;
    (destruct (FS.os_mkdir cwd _ tree) as [e|t] eqn:Hmk;
     [| intros [= <-]; by eapply os_mkdir_keeps_files]).
  - destruct e; try done;
      (destruct (FS.is_dir cwd tree _); [|done]); intros [= <-];
      apply keeps_files_refl.
  - destruct e;
      try (destruct (FS.is_dir cwd tree _); [|done]; intros [= <-];
           apply keeps_files_refl).
    destruct (FS.mkdir_parents_rev cwd r rparent tree) as [e|tree1] eqn:Hrec; [done|].
    intros Hlast. eapply keeps_files_trans; [by apply IH|].
    by eapply mkdir_exist_ok_keeps_files.
Qed.

Lemma mkdir_parents_keeps_files tree tree' p :
  FS.mkdir_parents cwd p tree = inr tree' → FS.keeps_files tree tree'.
Proof. apply mkdir_parents_rev_keeps_files. Qed.

(** Putting a file where no directory is keeps every directory. *)
Lemma insert_file_keeps_dirs tree loc data mode :
  loc ≠ [] → FS.get tree loc ≠ Some Dir →
  ∀ l, FS.get tree l = Some Dir → FS.get (<[loc := File data mode]> tree) l = Some Dir.
Proof.
  intros Hne Hnd l Hl. rewrite get_insert by done.
  case_decide; [congruence | done].
Qed.

Lemma stat_insert_file tree p loc data mode :
  FS.locate cwd tree p = inr loc →
  loc ≠ [] → FS.get tree loc ≠ Some Dir →
  FS.stat cwd (<[loc := File data mode]> tree) p = inr (File data mode).
Proof.
  intros Hloc Hne Hnd. unfold FS.stat, FS.locate in *.
  rewrite (walk_keeps_dirs tree _ _ _ loc (insert_file_keeps_dirs _ _ data mode Hne Hnd) Hloc).
  rewrite get_insert by done. by rewrite decide_True.
Qed.

(** After [write_bytes] the path names a file with the bytes written, and
    every file has the mode it had. *)
Lemma write_bytes_ok (umask : Z) tree tree' p (data : list Byte.byte) :
  FS.write_bytes cwd umask p data tree = inr tree' →
  (∃ mode, FS.stat cwd tree' p = inr (File data mode)) ∧ FS.keeps_modes tree tree'.
Proof.
  unfold FS.write_bytes.
  destruct (FS.locate_parent cwd tree p) as [[e|[dir last]]|] eqn:Hpar; try done.
  apply locate_of_parent in Hpar. unfold FS.step_into in Hpar.
  destruct (String.eqb last ".."); [done|].
  pose proof (snoc_not_nil dir last) as Hne.
  destruct (FS.get tree (dir ++ [last])) as [[old mode|]|] eqn:Hget; [|done|].
  - destruct (FS.owner_w mode); [|done]. intros [= <-]. split.
    + exists mode. apply stat_insert_file; [done..|congruence].
    + intros loc d m Hloc. destruct (decide (dir ++ [last] = loc)) as [<-|Hd].
      * rewrite lookup_insert_eq. exists data. f_equal.
        destruct (dir ++ [last]); [done|]. simpl in Hget. congruence.
      * rewrite lookup_insert_ne by done. by exists d.
  - intros [= <-]. split.
    + eexists. apply stat_insert_file; [done..|congruence].
    + intros loc d m Hloc. apply get_None_lookup in Hget.
      rewrite lookup_insert_ne; [by exists d|]. intros <-. congruence.
Qed.

(** [chmod] on a file sets its mode and keeps its bytes. *)
Lemma chmod_file tree p (data : list Byte.byte) (old mode : Z) :
  FS.stat cwd tree p = inr (File data old) →
  ∃ tree', FS.chmod cwd p mode tree = inr tree'
           ∧ FS.stat cwd tree' p = inr (File data mode).
Proof.
  unfold FS.stat, FS.chmod.
  destruct (FS.locate cwd tree p) as [e|loc] eqn:Hloc; [done|].
  destruct (FS.get tree loc) as [n|] eqn:Hget; [|done].
  intros [= ->]. eexists. split; [done|].
  fold (FS.stat cwd (<[loc := File data mode]> tree) p).
  apply stat_insert_file; [done| |congruence].
  intros ->. simpl in Hget. congruence.
Qed.

End FSFacts.

(** ** Running the monad *)

(** Unfold the monad's operations and reduce the steps that are decided. *)
Ltac py_step :=
  cbv beta iota zeta delta
    [mbind Py_bind mret Py_ret raise lift_result update_fs read_fs
     print_stderr urlopen];
  cbn [fs requests stderr fst snd].

(** ** TargetResolver *)

(** C2. [_resolve_target] is an exact lookup of the lower-cased (system,
    machine) pair: the five pairs macOS/Apple-silicon, macOS/Intel,
    Linux/x86_64, Linux/arm64 and Windows/x86_64 give their target triple and
    binary name, and every other pair raises the unsupported-platform error
    whose message carries the pair. *)
Theorem resolve_target_table (host : Host) :
  let system := Str.lower (platform_system host) in
  let machine := Str.lower (platform_machine host) in
  _resolve_target host =
    if bool_decide ((system, machine) = ("darwin", "arm64"))
    then Ok ("aarch64-apple-darwin", "opennexus")
    else if bool_decide ((system, machine) = ("darwin", "x86_64"))
    then Ok ("x86_64-apple-darwin", "opennexus")
    else if bool_decide ((system, machine) = ("linux", "x86_64"))
    then Ok ("x86_64-unknown-linux-gnu", "opennexus")
    else if bool_decide ((system, machine) = ("linux", "aarch64"))
    then Ok ("aarch64-unknown-linux-gnu", "opennexus")
    else if bool_decide ((system, machine) = ("windows", "amd64"))
    then Ok ("x86_64-pc-windows-msvc", "opennexus.exe")
    else Raise (RuntimeError ("Unsupported platform: " +:+ system +:+ "/" +:+ machine)).
Proof.
  intros system machine. unfold _resolve_target. fold system machine.
  clearbody system machine.
  repeat (case_bool_decide as Hkey; [rewrite Hkey; reflexivity | revert Hkey]).
  intros.
  destruct (targets !! (system, machine)) as [target|] eqn:Hlook; [|done].
  table_cases Hlook; done.
Qed.

(** C9. On a platform that the table does not hold, the Provisioner raises
    the unsupported-platform error and the state is the one it started in: no
    directory or file was made, nothing was fetched or printed. *)
Theorem unsupported_platform_atomic (host : Host) (st : State) :
  let system := Str.lower (platform_system host) in
  let machine := Str.lower (platform_machine host) in
  targets !! (system, machine) = None →
  _ensure_managed_binary host st =
    (Raise (RuntimeError ("Unsupported platform: " +:+ system +:+ "/" +:+ machine)), st).
Proof.
  intros system machine Habsent.
  unfold _ensure_managed_binary, mbind, Py_bind, lift_result, _resolve_target.
  fold system machine. by rewrite Habsent.
Qed.

Lemma unsupported_platform_atomic_witness :
  _ensure_managed_binary Sample.solaris Sample.empty_state =
    (Raise (RuntimeError "Unsupported platform: sunos/sun4v"), Sample.empty_state).
Proof.
  apply (unsupported_platform_atomic Sample.solaris Sample.empty_state).
  vm_compute. reflexivity.
Defined.

(** ** CacheLocation and the release base URL *)

(** C10. An empty [XDG_CACHE_HOME] (off Windows) or [LOCALAPPDATA] (on
    Windows) is treated like an unset one: the cache root is the fallback
    below the home directory.  An empty [OPENNEXUS_RELEASE_BASE_URL] is used as
    it is: the release base URL is the empty string, not the default. *)
Theorem empty_environment_values (host : Host) :
  (os_name host ≠ "nt" →
   environ host !! "XDG_CACHE_HOME" = None ∨ environ host !! "XDG_CACHE_HOME" = Some "" →
   _cache_root host = home host </> ".cache")
  ∧ (os_name host = "nt" →
     environ host !! "LOCALAPPDATA" = None ∨ environ host !! "LOCALAPPDATA" = Some "" →
     _cache_root host = home host </> "AppData" </> "Local")
  ∧ (environ host !! "OPENNEXUS_RELEASE_BASE_URL" = Some "" →
     RELEASE_BASE_URL host = ""
     ∧ RELEASE_BASE_URL host ≠
         "https://github.com/Alpha-Innovation-Labs/opennexus/releases/download/v" +:+ VERSION host).
Proof.
  unfold _cache_root, RELEASE_BASE_URL. split; [|split].
  - intros Hos Hxdg. apply String.eqb_neq in Hos. rewrite Hos.
    by destruct Hxdg as [-> | ->].
  - intros Hos Hlocal. apply String.eqb_eq in Hos. rewrite Hos.
    by destruct Hlocal as [-> | ->].
  - by intros ->.
Qed.

Lemma empty_environment_values_witness :
  _cache_root Sample.posix_empty_xdg = MkPath "/" ["Users"; "u"; ".cache"]
  ∧ _cache_root Sample.windows = MkPath "/" ["Users"; "u"; "AppData"; "Local"]
  ∧ RELEASE_BASE_URL Sample.windows = "".
Proof.
  split; [|split].
  - apply (empty_environment_values Sample.posix_empty_xdg);
      [discriminate | right; reflexivity].
  - apply (empty_environment_values Sample.windows);
      [reflexivity | right; reflexivity].
  - apply (empty_environment_values Sample.windows). reflexivity.
Defined.

(** ** Launcher *)

(** C6. A run ends in [os.execv] exactly when a binary is resolved (found
    installed, else provisioned), and then the argument vector is
    ["opennexus"] followed by the launcher's own arguments after the first,
    as they are, with the resolved binary as the program. *)
Theorem main_forwards_arguments (host : Host) (st st' : State)
    (binary : Path) (args : list string) :
  main host st = (Exec binary args, st') ↔
  args = "opennexus" :: drop 1 (argv host) ∧ resolve_binary host st = (Ok binary, st').
Proof.
  unfold main. destruct (resolve_binary host st) as [[found|e] st1]; split.
  - by intros [= -> -> ->].
  - by intros [-> [= -> ->]].
  - done.
  - by intros [_ ?].
Qed.

Example main_linux_clean_cache :
  (main Sample.linux Sample.empty_state).1 =
    Exec (MkPath "/" ["var"; "cache"; "opennexus"; "bin"; "0.2.0";
                      "x86_64-unknown-linux-gnu"; "opennexus"])
         ["opennexus"; "--version"].
Proof. vm_compute. reflexivity. Qed.

(** ** BinaryLocator *)

(** C1. When the launcher was started as [argv0] and every candidate that
    [_find_installed_binary] discovers (the cargo entry, if it exists as an
    executable regular file, and the search-path result, if any) resolves to
    the canonical file of the launcher, the result is [None]. *)
Theorem find_installed_binary_excludes_self (host : Host) (st : State)
    (argv0 : string) (rest : list string) :
  argv host = argv0 :: rest →
  (path_exists host (fs st) (cargo_binary host) = true →
   is_file host (fs st) (cargo_binary host) = true →
   access_X_OK host (fs st) (cargo_binary host) = true →
   same_canonical_file host (cargo_binary host) (PurePath.of_string argv0)) →
  (∀ located, shutil_which host "opennexus" = Some located →
   same_canonical_file host (PurePath.of_string located) (PurePath.of_string argv0)) →
  _find_installed_binary host st = (Ok None, st).
Proof.
  intros Hargv Hcargo Hwhich.
  assert (Hsame : ∀ p, same_canonical_file host p (PurePath.of_string argv0) →
                       _same_file host p (PurePath.of_string argv0) = true).
  { intros p (c & Hp & Hscript). unfold _same_file. rewrite Hp, Hscript.
    by apply bool_decide_eq_true. }
  unfold _find_installed_binary, mbind, Py_bind, read_fs, mret, Py_ret.
  rewrite Hargv.
  destruct (path_exists host (fs st) (cargo_binary host)) eqn:Hex;
    destruct (is_file host (fs st) (cargo_binary host)) eqn:Hfile;
    destruct (access_X_OK host (fs st) (cargo_binary host)) eqn:Hacc; simpl;
    try rewrite (Hsame _ (Hcargo eq_refl eq_refl eq_refl)); simpl;
    (destruct (shutil_which host "opennexus") as [located|] eqn:Hloc; simpl; [|done];
     destruct (Str.truthy located); [|done];
     by rewrite (Hsame _ (Hwhich _ eq_refl))).
Qed.

Lemma find_installed_binary_excludes_self_witness :
  _find_installed_binary Sample.linux_cargo (MkState Sample.cargo_tree [] []) =
    (Ok None, MkState Sample.cargo_tree [] []).
Proof.
  apply (find_installed_binary_excludes_self Sample.linux_cargo
           (MkState Sample.cargo_tree [] []) "/home/u/.cargo/bin/opennexus" ["--help"]).
  - reflexivity.
  - intros _ _ _. exists (MkPath "/" ["home"; "u"; ".cargo"; "bin"; "opennexus"]).
    split; reflexivity.
  - intros located [= <-].
    exists (MkPath "/" ["home"; "u"; ".cargo"; "bin"; "opennexus"]).
    split; reflexivity.
Defined.

Example cargo_binary_is_discovered :
  let tree := Sample.cargo_tree in
  let h := Sample.linux_cargo in
  path_exists h tree (cargo_binary h) && is_file h tree (cargo_binary h)
    && access_X_OK h tree (cargo_binary h) = true.
Proof. vm_compute. reflexivity. Qed.

(** ** Downloader *)

(** C5. What [_download] does with the answer to its one request; there is
    no second request.  The download-failed error, whose message carries the
    status and the URL, is raised for the statuses from 201 to 299 only.  A
    status outside 200..299 does not reach the module's test of the status:
    [urlopen] has raised [HTTPError] by then, and that is the exception
    [_download] ends in, not the download-failed error; nothing is written.  A
    status of 200 has the whole body written to the destination, which then is
    a file holding these bytes (or the write raises its own [OSError]). *)
Theorem download_status_outcomes (host : Host) (url : string) (destination : Path)
    (st : State) (status : Z) (body : list Byte.byte) :
  urlopen_outcome host url = Response status body →
  let fetched := MkState (fs st) (requests st ++ [url]) (stderr st) in
  let download_failed :=
    RuntimeError ("Download failed (" +:+ pretty status +:+ ") for " +:+ url) in
  ((status < 200)%Z ∨ (300 ≤ status)%Z →
   _download host url destination st = (Raise (HTTPError status), fetched)
   ∧ _download host url destination st ≠ (Raise download_failed, fetched))
  ∧ ((200 < status < 300)%Z →
     _download host url destination st = (Raise download_failed, fetched))
  ∧ (status = 200 →
     match FS.write_bytes (getcwd host) (umask host) destination body (fs st) with
     | inr tree' =>
         _download host url destination st =
           (Ok tt, MkState tree' (requests st ++ [url]) (stderr st))
         ∧ ∃ mode, FS.stat (getcwd host) tree' destination = inr (File body mode)
     | inl e => _download host url destination st = (Raise (OSError e), fetched)
     end).
Proof.
  intros Hresp fetched download_failed.
  unfold _download. py_step. rewrite Hresp.
  split; [|split].
  - intros Hstatus.
    assert (Hout : http_success status = false).
    { apply andb_false_iff. destruct Hstatus; [left | right]; lia. }
    by rewrite Hout.
  - intros Hstatus.
    assert (Hin : http_success status = true).
    { apply andb_true_iff. split; lia. }
    rewrite Hin. py_step. rewrite bool_decide_eq_true_2 by lia. reflexivity.
  - intros ->. change (http_success 200) with true. py_step.
    rewrite bool_decide_eq_false_2 by (intros Hne; by apply Hne). py_step.
    destruct (FS.write_bytes _ _ destination body (fs st)) as [e|tree'] eqn:Hwrite; [done|].
    split; [done|]. by apply write_bytes_ok in Hwrite as [? _].
Qed.

Lemma download_status_outcomes_witness :
  let url := "https://example.org/opennexus-x86_64-unknown-linux-gnu" in
  let fetched := MkState ∅ (requests Sample.empty_state ++ [url]) [] in
  _download Sample.linux_other url (MkPath "/" ["tmp"; "opennexus"]) Sample.empty_state
    = (Raise (HTTPError 404), fetched)
  ∧ _download Sample.linux_other url (MkPath "/" ["tmp"; "opennexus"]) Sample.empty_state
    ≠ (Raise (RuntimeError ("Download failed (" +:+ pretty 404 +:+ ") for " +:+ url)),
       fetched).
Proof.
  apply (download_status_outcomes Sample.linux_other
           "https://example.org/opennexus-x86_64-unknown-linux-gnu"
           (MkPath "/" ["tmp"; "opennexus"]) Sample.empty_state 404 []).
  - reflexivity.
  - right. lia.
Defined.

Example download_200_writes_body :
  let tree := <[ ["tmp"] := Dir ]> (∅ : gmap (list string) Node) in
  let result := _download Sample.linux "https://example.org/asset"
                  (MkPath "/" ["tmp"; "opennexus"]) (MkState tree [] []) in
  result.1 = Ok tt
  ∧ fs result.2 !! ["tmp"; "opennexus"]
      = Some (File [Byte.x7f; Byte.x45; Byte.x4c; Byte.x46] 420)   (* 0o644 *)
  ∧ requests result.2 = ["https://example.org/asset"].
Proof. vm_compute. done. Qed.

(** ** Provisioner *)

(** How a run of [_ensure_managed_binary] that returns a path went. *)
Lemma ensure_managed_binary_Ok (host : Host) (st st' : State) (p : Path) :
  _ensure_managed_binary host st = (Ok p, st') →
  ∃ target tree1,
    _resolve_target host = Ok target
    ∧ p = binary_path_of (_cache_root host) (VERSION host) target
    ∧ FS.mkdir_parents (getcwd host)
        (install_dir_of (_cache_root host) (VERSION host) target.1) (fs st) = inr tree1
    ∧ ((path_exists host tree1 p && access_X_OK host tree1 p = true
        ∧ st' = MkState tree1 (requests st) (stderr st))
       ∨ (path_exists host tree1 p && access_X_OK host tree1 p = false
          ∧ ∃ body tree2,
              urlopen_outcome host (asset_url_of host target) = Response 200 body
              ∧ FS.write_bytes (getcwd host) (umask host) p body tree1 = inr tree2
              ∧ requests st' = requests st ++ [asset_url_of host target]
              ∧ if String.eqb (os_name host) "nt" then fs st' = tree2
                else FS.chmod (getcwd host) p 493 tree2 = inr (fs st'))).
Proof.
  unfold _ensure_managed_binary, _download, binary_path_of. py_step.
  destruct (_resolve_target host) as [target|e] eqn:Htarget; [|done]. py_step.
  destruct (FS.mkdir_parents _ _ (fs st)) as [e|tree1] eqn:Hmkdir; [done|]. py_step.
  set (p0 := install_dir_of _ _ _ </> target.2).
  destruct (path_exists host tree1 p0 && access_X_OK host tree1 p0) eqn:Hcached.
  - intros [= <- <-]. exists target, tree1. by eauto 10.
  - destruct (urlopen_outcome host _) as [status body|e] eqn:Hresp; [|done]. py_step.
    destruct (http_success status); [|done]. py_step.
    case_bool_decide as Hstatus; [done|]. py_step.
    assert (status = 200) as -> by (by destruct (decide (status = 200))).
    destruct (FS.write_bytes _ _ p0 body tree1) as [e|tree2] eqn:Hwrite; [done|]. py_step.
    destruct (String.eqb (os_name host) "nt") eqn:Hos; cbn [negb]; py_step.
    + intros [= <- <-]. exists target, tree1. repeat split; try done.
      right. split; [done|]. by exists body, tree2.
    + destruct (FS.chmod _ p0 493 tree2) as [e|tree3] eqn:Hchmod; [done|]. py_step.
      intros [= <- <-]. exists target, tree1. repeat split; try done.
      right. split; [done|]. by exists body, tree2.
Qed.

(** C4. A cache hit changes nothing: when the binary path exists and is
    executable, [_ensure_managed_binary] returns it in the state it started
    in, so nothing was fetched and the file has its bytes and its mode. *)
Theorem cache_hit_is_idempotent (host : Host) (st : State) (target : string * string) :
  _resolve_target host = Ok target →
  let binary_path := binary_path_of (_cache_root host) (VERSION host) target in
  path_exists host (fs st) binary_path = true →
  access_X_OK host (fs st) binary_path = true →
  _ensure_managed_binary host st = (Ok binary_path, st).
Proof.
  intros Htarget binary_path Hexists Haccess.
  assert (Hplain : PurePath.plain_component target.2).
  { unfold _resolve_target in Htarget.
    destruct (targets !! _) as [t|] eqn:Hlook; [|done].
    injection Htarget as ->. by apply targets_plain in Hlook as [_ ?]. }
  assert (Hmkdir : FS.mkdir_parents (getcwd host)
            (install_dir_of (_cache_root host) (VERSION host) target.1) (fs st) = inr (fs st)).
  { apply mkdir_parents_is_dir. unfold path_exists in Hexists.
    destruct (FS.stat (getcwd host) (fs st) binary_path) as [|n] eqn:Hstat; [done|].
    by apply is_dir_of_child with target.2 n. }
  unfold _ensure_managed_binary, mbind, Py_bind, lift_result, update_fs, read_fs,
    mret, Py_ret.
  rewrite Htarget. simpl. rewrite Hmkdir. simpl.
  fold (binary_path_of (_cache_root host) (VERSION host) target). fold binary_path.
  rewrite Hexists, Haccess. simpl. by destruct st.
Qed.

Lemma cache_hit_is_idempotent_witness :
  _ensure_managed_binary Sample.linux (MkState Sample.cached_tree [] []) =
    (Ok (MkPath "/" ["var"; "cache"; "opennexus"; "bin"; "0.2.0";
                     "x86_64-unknown-linux-gnu"; "opennexus"]),
     MkState Sample.cached_tree [] []).
Proof.
  apply (cache_hit_is_idempotent Sample.linux (MkState Sample.cached_tree [] [])
           ("x86_64-unknown-linux-gnu", "opennexus")).
  - vm_compute. reflexivity.
  - vm_compute. reflexivity.
  - vm_compute. reflexivity.
Defined.

(** C3. The path a run of the Provisioner returns is the cache root joined
    with [opennexus], [bin], the version, the target triple and the binary
    name, and nothing else has a say: two runs, on any hosts and states, that
    agree on cache root, version and platform target return the same path. *)
Theorem binary_path_is_pure (host1 host2 : Host) (st1 st1' st2 st2' : State)
    (p1 p2 : Path) :
  _cache_root host1 = _cache_root host2 →
  VERSION host1 = VERSION host2 →
  _resolve_target host1 = _resolve_target host2 →
  _ensure_managed_binary host1 st1 = (Ok p1, st1') →
  _ensure_managed_binary host2 st2 = (Ok p2, st2') →
  p1 = p2
  ∧ ∃ target_triple binary_name,
      _resolve_target host1 = Ok (target_triple, binary_name)
      ∧ p1 = _cache_root host1 </> "opennexus" </> "bin" </> VERSION host1
               </> target_triple </> binary_name.
Proof.
  intros Hroot Hversion Htarget Hrun1 Hrun2.
  apply ensure_managed_binary_Ok in Hrun1 as (target1 & _ & Ht1 & -> & _).
  apply ensure_managed_binary_Ok in Hrun2 as (target2 & _ & Ht2 & -> & _).
  rewrite Htarget, Ht2 in Ht1. injection Ht1 as <-.
  rewrite Hroot, Hversion. split; [done|].
  exists target2.1, target2.2. split; [|done].
  rewrite Htarget, Ht2. by destruct target2.
Qed.

Lemma binary_path_is_pure_witness :
  let p := MkPath "/" ["var"; "cache"; "opennexus"; "bin"; "0.2.0";
                       "x86_64-unknown-linux-gnu"; "opennexus"] in
  p = p
  ∧ ∃ target_triple binary_name,
      _resolve_target Sample.linux = Ok (target_triple, binary_name)
      ∧ p = _cache_root Sample.linux </> "opennexus" </> "bin" </> VERSION Sample.linux
              </> target_triple </> binary_name.
Proof.
  apply (binary_path_is_pure Sample.linux Sample.linux_other
    Sample.empty_state (_ensure_managed_binary Sample.linux Sample.empty_state).2
    (MkState Sample.cached_tree ["https://example.org/"] ["hello"])
    (MkState Sample.cached_tree ["https://example.org/"] ["hello"]));
    vm_compute; reflexivity.
Defined.

(** The layout of the binary path: for a version that is one plain
    component and a target of the table, the components of the cache root
    are followed by [opennexus], [bin], the version, the triple and the
    binary name. *)
Lemma binary_path_layout (cache_root : Path) (version : string)
    (key target : string * string) :
  PurePath.plain_component version →
  targets !! key = Some target →
  binary_path_of cache_root version target =
    MkPath (root cache_root)
           (parts cache_root ++ ["opennexus"; "bin"; version; target.1; target.2]).
Proof.
  intros Hversion Hlook. apply targets_plain in Hlook as [Htriple Hname].
  unfold binary_path_of, install_dir_of.
  rewrite !joinpath_plain by done. simpl.
  by rewrite <- !app_assoc.
Qed.

(** C7. On a cache miss the Provisioner makes one request, to the release
    base URL followed by [/opennexus-] and the target triple, with [.exe]
    after it exactly on Windows; the release base URL is the value of
    [OPENNEXUS_RELEASE_BASE_URL] when the variable is set and the default
    release URL of the version otherwise. *)
Theorem asset_url_on_cache_miss (host : Host) (st : State)
    (target : string * string) (tree1 : gmap (list string) Node) :
  let binary_path := binary_path_of (_cache_root host) (VERSION host) target in
  let base :=
    match environ host !! "OPENNEXUS_RELEASE_BASE_URL" with
    | Some value => value
    | None => "https://github.com/Alpha-Innovation-Labs/opennexus/releases/download/v"
                +:+ VERSION host
    end in
  let extension :=
    if bool_decide (Str.lower (platform_system host) = "windows") then ".exe" else "" in
  _resolve_target host = Ok target →
  FS.mkdir_parents (getcwd host)
    (install_dir_of (_cache_root host) (VERSION host) target.1) (fs st) = inr tree1 →
  path_exists host tree1 binary_path && access_X_OK host tree1 binary_path = false →
  requests (_ensure_managed_binary host st).2 =
    requests st ++ [base +:+ "/opennexus-" +:+ target.1 +:+ extension].
Proof.
  intros binary_path base extension Htarget Hmkdir Hmiss.
  assert (Hurl : asset_url_of host target = base +:+ "/opennexus-" +:+ target.1 +:+ extension).
  { unfold asset_url_of, asset_name_of, extension. fold (RELEASE_BASE_URL host).
    unfold _resolve_target in Htarget.
    destruct (targets !! _) as [t|] eqn:Hlook; [|done]. injection Htarget as ->.
    by rewrite (targets_exe _ _ Hlook). }
  rewrite <- Hurl.
  unfold _ensure_managed_binary, _download. py_step.
  rewrite Htarget. py_step. rewrite Hmkdir. py_step.
  fold (binary_path_of (_cache_root host) (VERSION host) target). fold binary_path.
  rewrite Hmiss.
  destruct (urlopen_outcome host _) as [status body|e]; [|done]. py_step.
  destruct (http_success status); [|done]. py_step.
  case_bool_decide; [done|]. py_step.
  destruct (FS.write_bytes _ _ binary_path body tree1) as [e|tree2]; [done|]. py_step.
  destruct (negb _); py_step; [|done].
  by destruct (FS.chmod _ binary_path 493 tree2).
Qed.

Lemma asset_url_on_cache_miss_witness :
  requests (_ensure_managed_binary Sample.windows Sample.empty_state).2 =
    [] ++ ["" +:+ "/opennexus-" +:+ "x86_64-pc-windows-msvc" +:+ ".exe"].
Proof.
  apply (asset_url_on_cache_miss Sample.windows Sample.empty_state
           ("x86_64-pc-windows-msvc", "opennexus.exe") Sample.windows_dirs).
  - vm_compute. reflexivity.
  - vm_compute. reflexivity.
  - vm_compute. reflexivity.
Defined.

(** C8. After a run of the Provisioner that downloaded and returned, the
    binary path is a file holding the bytes of the response.  Off Windows
    its mode is 0o755; on Windows no mode was changed: every file that was
    there has the mode it had. *)
Theorem download_sets_permissions (host : Host) (st st' : State) (p : Path) :
  _ensure_managed_binary host st = (Ok p, st') →
  requests st' ≠ requests st →
  ∃ target body,
    _resolve_target host = Ok target
    ∧ p = binary_path_of (_cache_root host) (VERSION host) target
    ∧ urlopen_outcome host (asset_url_of host target) = Response 200 body
    ∧ if String.eqb (os_name host) "nt"
      then (∃ mode, FS.stat (getcwd host) (fs st') p = inr (File body mode))
           ∧ FS.keeps_modes (fs st) (fs st')
      else FS.stat (getcwd host) (fs st') p = inr (File body 493).
Proof.
  intros Hrun Hfetched.
  apply ensure_managed_binary_Ok in Hrun
    as (target & tree1 & Htarget & Hp & Hmkdir & [[_ ->] | (_ & body & tree2 & Hresp & Hwrite & _ & Hend)]);
    [done|].
  exists target, body. repeat (split; [done|]).
  apply write_bytes_ok in Hwrite as [[mode Hstat] Hmodes].
  destruct (String.eqb (os_name host) "nt").
  - rewrite Hend. split; [by exists mode|].
    apply keeps_files_modes with tree1; [|done].
    by apply mkdir_parents_keeps_files in Hmkdir.
  - destruct (chmod_file (getcwd host) tree2 p body mode 493 Hstat) as (tree3 & Hchmod & Hstat3).
    rewrite Hchmod in Hend. by injection Hend as <-.
Qed.

Lemma download_sets_permissions_witness :
  ∃ target body,
    _resolve_target Sample.linux = Ok target
    ∧ MkPath "/" ["var"; "cache"; "opennexus"; "bin"; "0.2.0";
                  "x86_64-unknown-linux-gnu"; "opennexus"]
      = binary_path_of (_cache_root Sample.linux) (VERSION Sample.linux) target
    ∧ urlopen_outcome Sample.linux (asset_url_of Sample.linux target) = Response 200 body
    ∧ FS.stat (getcwd Sample.linux)
        (fs (_ensure_managed_binary Sample.linux Sample.empty_state).2)
        (MkPath "/" ["var"; "cache"; "opennexus"; "bin"; "0.2.0";
                     "x86_64-unknown-linux-gnu"; "opennexus"])
      = inr (File body 493).
Proof.
  apply (download_sets_permissions Sample.linux Sample.empty_state
           (_ensure_managed_binary Sample.linux Sample.empty_state).2
           (MkPath "/" ["var"; "cache"; "opennexus"; "bin"; "0.2.0";
                        "x86_64-unknown-linux-gnu"; "opennexus"])).
  - vm_compute. reflexivity.
  - vm_compute. discriminate.
Defined.

Example download_on_windows_keeps_modes :
  let before := <[ ["Users"; "u"; "AppData"; "Local"; "opennexus"; "bin"; "0.1.5";
                    "x86_64-pc-windows-msvc"; "opennexus.exe"] := File [] 438 ]>
                  Sample.windows_dirs in
  let after := fs (_ensure_managed_binary Sample.windows (MkState before [] [])).2 in
  after !! ["Users"; "u"; "AppData"; "Local"; "opennexus"; "bin"; "0.1.5";
            "x86_64-pc-windows-msvc"; "opennexus.exe"]
    = Some (File [Byte.x4d; Byte.x5a] 438).
Proof. vm_compute. reflexivity. Qed.

(** ** More facts about the file system *)

Section FSMore.

Variable cwd : list string.
Implicit Types (tree : gmap (list string) Node) (loc : list string) (p : Path).

(** Walking a path in two legs. *)
Lemma walk_app tree first : ∀ cur second,
  FS.walk tree cur (first ++ second) =
    match FS.walk tree cur first with
    | inl e => inl e
    | inr loc => FS.walk tree loc second
    end.
Proof.
  induction first as [|n ns IH]; intros cur second; simpl; [done|].
  destruct (FS.get tree cur) as [[]|]; auto.
Qed.

(** Below a regular file there is nothing to walk to. *)
Lemma walk_through_file tree loc (names : list string) data mode :
  FS.get tree loc = Some (File data mode) → names ≠ [] →
  FS.walk tree loc names = inl ENOTDIR.
Proof. intros Hfile Hne. destruct names; [done|]. simpl. by rewrite Hfile. Qed.

(** Putting an entry where no directory is keeps every directory. *)
Lemma insert_keeps_dirs tree loc (n : Node) :
  loc ≠ [] → FS.get tree loc ≠ Some Dir →
  ∀ l, FS.get tree l = Some Dir → FS.get (<[loc := n]> tree) l = Some Dir.
Proof.
  intros Hne Hnd l Hl. rewrite get_insert by done.
  case_decide; [congruence | done].
Qed.

(** [os.mkdir] that succeeds leaves the path a directory and every entry
    in place. *)
Lemma os_mkdir_makes_dir tree tree' p :
  FS.os_mkdir cwd p tree = inr tree' →
  FS.is_dir cwd tree' p = true ∧ tree ⊆ tree'.
Proof.
  unfold FS.os_mkdir.
  destruct (FS.locate_parent cwd tree p) as [[e|[dir last]]|] eqn:Hpar; try done.
  apply locate_of_parent in Hpar. unfold FS.step_into in Hpar.
  destruct (String.eqb last ".."); [done|].
  pose proof (snoc_not_nil dir last) as Hne.
  destruct (FS.get tree (dir ++ [last])) eqn:Hfree; [done|].
  intros [= <-]. split.
  - unfold FS.is_dir, FS.stat, FS.locate in *.
    rewrite (walk_keeps_dirs tree _ _ _ (dir ++ [last])); [|apply insert_keeps_dirs|];
      [| done | congruence | done].
    rewrite get_insert by done. by rewrite decide_True.
  - apply insert_subseteq. by apply get_None_lookup.
Qed.

Lemma mkdir_exist_ok_makes_dir tree tree' p :
  FS.mkdir_exist_ok cwd p tree = inr tree' →
  FS.is_dir cwd tree' p = true ∧ tree ⊆ tree'.
Proof.
  unfold FS.mkdir_exist_ok.
  destruct (FS.os_mkdir cwd p tree) as [e|t] eqn:Hmk.
  - destruct e; try done;
      (destruct (FS.is_dir cwd tree p) eqn:Hdir; [|done]); by intros [= <-].
  - intros [= <-]. by apply os_mkdir_makes_dir.
Qed.

(** [mkdir(parents=True, exist_ok=True)] that succeeds leaves the path a
    directory and every entry in place. *)
Lemma mkdir_parents_rev_makes_dir (r : string) (rparts : list string) :
  ∀ tree tree', FS.mkdir_parents_rev cwd r rparts tree = inr tree' →
    FS.is_dir cwd tree' (MkPath r (rev rparts)) = true ∧ tree ⊆ tree'.
Proof.
  induction rparts as [|last rparent IH]; intros tree tree';
    rewrite mkdir_parents_rev_eq; cbv zeta;
    (destruct (FS.os_mkdir cwd _ tree) as [e|t] eqn:Hmk;
     [| intros [= <-]; by apply os_mkdir_makes_dir]).
  - destruct e; try done;
      (destruct (FS.is_dir cwd tree _) eqn:Hdir; [|done]); by intros [= <-].
  - destruct e;
      try (destruct (FS.is_dir cwd tree _) eqn:Hdir; [|done]; by intros [= <-]).
    destruct (FS.mkdir_parents_rev cwd r rparent tree) as [e|tree1] eqn:Hrec; [done|].
    intros Hlast. apply IH in Hrec as [_ Hsub1].
    apply mkdir_exist_ok_makes_dir in Hlast as [Hdir Hsub2].
    split; [done|]. by trans tree1.
Qed.

Lemma mkdir_parents_makes_dir tree tree' p :
  FS.mkdir_parents cwd p tree = inr tree' →
  FS.is_dir cwd tree' p = true ∧ tree ⊆ tree'.
Proof.
  unfold FS.mkdir_parents. intros H.
  apply mkdir_parents_rev_makes_dir in H. rewrite rev_involutive in H.
  by destruct p.
Qed.

(** What [write_bytes] changes: the entry the path names, and only it. *)
Lemma write_bytes_inv (umask : Z) tree tree' p (data : list Byte.byte) :
  FS.write_bytes cwd umask p data tree = inr tree' →
  ∃ loc mode,
    FS.locate cwd tree p = inr loc ∧ loc ≠ [] ∧ FS.get tree loc ≠ Some Dir
    ∧ tree' = <[loc := File data mode]> tree.
Proof.
  unfold FS.write_bytes.
  destruct (FS.locate_parent cwd tree p) as [[e|[dir last]]|] eqn:Hpar; try done.
  apply locate_of_parent in Hpar. unfold FS.step_into in Hpar.
  destruct (String.eqb last ".."); [done|].
  pose proof (snoc_not_nil dir last) as Hne.
  destruct (FS.get tree (dir ++ [last])) as [[old mode|]|] eqn:Hget; [|done|].
  - destruct (FS.owner_w mode); [|done]. intros [= <-].
    exists (dir ++ [last]), mode. by rewrite Hget.
  - intros [= <-]. exists (dir ++ [last]), (Z.ldiff 438 umask). by rewrite Hget.
Qed.

(** What [chmod] changes: the mode of the file the path names. *)
Lemma chmod_inv tree tree' p (mode : Z) :
  FS.chmod cwd p mode tree = inr tree' →
  tree' = tree
  ∨ ∃ loc data old,
      FS.locate cwd tree p = inr loc ∧ loc ≠ [] ∧ FS.get tree loc = Some (File data old)
      ∧ tree' = <[loc := File data mode]> tree.
Proof.
  unfold FS.chmod.
  destruct (FS.locate cwd tree p) as [e|loc] eqn:Hloc; [done|].
  destruct (FS.get tree loc) as [[data old|]|] eqn:Hget; [| |done].
  - intros [= <-]. right. exists loc, data, old. repeat split; try done.
    intros ->. simpl in Hget. congruence.
  - intros [= <-]. by left.
Qed.

End FSMore.

(** ** More on the BinaryLocator *)

(** [_same_file] answers [True] exactly for two paths that resolve to one
    canonical path. *)
Lemma same_file_true_iff (host : Host) (first second : Path) :
  _same_file host first second = true ↔ same_canonical_file host first second.
Proof.
  unfold _same_file, same_canonical_file. split.
  - destruct (resolve host first) as [a|]; [|done].
    destruct (resolve host second) as [b|]; [|done].
    intros Heq%bool_decide_eq_true. subst. by exists b.
  - intros (c & -> & ->). by apply bool_decide_eq_true.
Qed.

(** What [_find_installed_binary] gives when there is an [argv0]: a result,
    in the state it started in. *)
Lemma find_installed_binary_run (host : Host) (st : State)
    (argv0 : string) (rest : list string) :
  argv host = argv0 :: rest →
  let script_path := PurePath.of_string argv0 in
  let usable := path_exists host (fs st) (cargo_binary host)
                && is_file host (fs st) (cargo_binary host)
                && access_X_OK host (fs st) (cargo_binary host) in
  _find_installed_binary host st =
    (Ok (if usable && negb (_same_file host (cargo_binary host) script_path)
         then Some (cargo_binary host)
         else match if_truthy (shutil_which host "opennexus") with
              | None => None
              | Some located =>
                  if _same_file host (PurePath.of_string located) script_path then None
                  else Some (PurePath.of_string located)
              end),
     st).
Proof.
  intros Hargv script_path usable.
  unfold _find_installed_binary. rewrite Hargv. py_step.
  fold script_path. fold usable.
  destruct (usable && negb _); [done|].
  destruct (if_truthy _) as [located|]; [|done].
  by destruct (_same_file host (PurePath.of_string located) script_path).
Qed.

(** X2. A path that [_find_installed_binary] returns was found by looking
    only: the state is the one the call started in, the launcher was started
    with an [argv0], the path is the cargo entry (an executable regular file)
    or the non-empty search-path result, and it does not resolve to the
    canonical file of the launcher. *)
Theorem find_installed_binary_sound (host : Host) (st st' : State) (found : Path) :
  _find_installed_binary host st = (Ok (Some found), st') →
  st' = st
  ∧ ∃ argv0 rest,
      argv host = argv0 :: rest
      ∧ ¬ same_canonical_file host found (PurePath.of_string argv0)
      ∧ ((found = cargo_binary host
          ∧ path_exists host (fs st) found = true
          ∧ is_file host (fs st) found = true
          ∧ access_X_OK host (fs st) found = true)
         ∨ (∃ located, shutil_which host "opennexus" = Some located
                       ∧ located ≠ "" ∧ found = PurePath.of_string located)).
Proof.
  destruct (argv host) as [|argv0 rest] eqn:Hargv.
  { unfold _find_installed_binary. by rewrite Hargv. }
  rewrite (find_installed_binary_run host st argv0 rest Hargv). cbv zeta.
  intros Hrun. injection Hrun as Hresult <-. split; [done|].
  exists argv0, rest. split; [done|]. revert Hresult.
  destruct (path_exists host (fs st) (cargo_binary host)) eqn:Hex;
    destruct (is_file host (fs st) (cargo_binary host)) eqn:Hfile;
    destruct (access_X_OK host (fs st) (cargo_binary host)) eqn:Hacc;
    destruct (_same_file host (cargo_binary host) (PurePath.of_string argv0)) eqn:Hcargo;
    simpl.
  2: { intros [= <-]. split; [|by left].
       rewrite <- same_file_true_iff. congruence. }
  all: unfold if_truthy;
    (destruct (shutil_which host "opennexus") as [located|] eqn:Hwhich; [|done]);
    (destruct (Str.truthy located) eqn:Htruthy; [|done]);
    (destruct (_same_file host (PurePath.of_string located) (PurePath.of_string argv0))
       eqn:Hsame; [done|]);
    intros [= <-]; (split; [rewrite <- same_file_true_iff; congruence|]);
    right; exists located; repeat split; try done;
    intros ->; done.
Qed.

Lemma find_installed_binary_sound_witness :
  Sample.empty_state = Sample.empty_state
  ∧ ∃ argv0 rest,
      argv Sample.linux_installed = argv0 :: rest
      ∧ ¬ same_canonical_file Sample.linux_installed
            (PurePath.of_string "/opt/bin/opennexus") (PurePath.of_string argv0)
      ∧ ((PurePath.of_string "/opt/bin/opennexus" = cargo_binary Sample.linux_installed
          ∧ path_exists Sample.linux_installed (fs Sample.empty_state)
              (PurePath.of_string "/opt/bin/opennexus") = true
          ∧ is_file Sample.linux_installed (fs Sample.empty_state)
              (PurePath.of_string "/opt/bin/opennexus") = true
          ∧ access_X_OK Sample.linux_installed (fs Sample.empty_state)
              (PurePath.of_string "/opt/bin/opennexus") = true)
         ∨ (∃ located, shutil_which Sample.linux_installed "opennexus" = Some located
                       ∧ located ≠ ""
                       ∧ PurePath.of_string "/opt/bin/opennexus"
                         = PurePath.of_string located)).
Proof.
  apply (find_installed_binary_sound Sample.linux_installed Sample.empty_state
           Sample.empty_state (PurePath.of_string "/opt/bin/opennexus")).
  reflexivity.
Defined.

(** X3. The cargo entry comes first: when it is an executable regular file
    and is not the launcher's canonical file, it is the result, whatever the
    search path holds. *)
Theorem cargo_binary_has_priority (host : Host) (st : State)
    (argv0 : string) (rest : list string) :
  argv host = argv0 :: rest →
  path_exists host (fs st) (cargo_binary host) = true →
  is_file host (fs st) (cargo_binary host) = true →
  access_X_OK host (fs st) (cargo_binary host) = true →
  ¬ same_canonical_file host (cargo_binary host) (PurePath.of_string argv0) →
  _find_installed_binary host st = (Ok (Some (cargo_binary host)), st).
Proof.
  intros Hargv Hex Hfile Hacc Hother.
  rewrite (find_installed_binary_run host st argv0 rest Hargv). cbv zeta.
  rewrite Hex, Hfile, Hacc.
  destruct (_same_file host (cargo_binary host) (PurePath.of_string argv0)) eqn:Hsame;
    [|done].
  by apply same_file_true_iff in Hsame.
Qed.

Lemma cargo_binary_has_priority_witness :
  _find_installed_binary Sample.linux (MkState Sample.cargo_tree [] []) =
    (Ok (Some (MkPath "/" ["home"; "u"; ".cargo"; "bin"; "opennexus"])),
     MkState Sample.cargo_tree [] []).
Proof.
  apply (cargo_binary_has_priority Sample.linux (MkState Sample.cargo_tree [] [])
           "/usr/local/bin/opennexus" ["--version"]).
  - reflexivity.
  - vm_compute. reflexivity.
  - vm_compute. reflexivity.
  - vm_compute. reflexivity.
  - intros (c & Hcargo & Hscript). vm_compute in Hcargo, Hscript. congruence.
Defined.

(** X4. Self-exclusion needs the paths to resolve: when the launcher is the
    cargo entry itself and its path cannot be resolved, the comparison
    answers [False] and the launcher's own path is the result. *)
Theorem unresolvable_launcher_is_returned (host : Host) (st : State)
    (argv0 : string) (rest : list string) :
  argv host = argv0 :: rest →
  PurePath.of_string argv0 = cargo_binary host →
  resolve host (cargo_binary host) = None →
  path_exists host (fs st) (cargo_binary host) = true →
  is_file host (fs st) (cargo_binary host) = true →
  access_X_OK host (fs st) (cargo_binary host) = true →
  _find_installed_binary host st = (Ok (Some (PurePath.of_string argv0)), st).
Proof.
  intros Hargv Hself Hres Hex Hfile Hacc.
  rewrite (find_installed_binary_run host st argv0 rest Hargv). cbv zeta.
  rewrite Hex, Hfile, Hacc, Hself. unfold _same_file. by rewrite Hres.
Qed.

Lemma unresolvable_launcher_is_returned_witness :
  _find_installed_binary Sample.linux_unresolvable (MkState Sample.cargo_tree [] []) =
    (Ok (Some (PurePath.of_string "/home/u/.cargo/bin/opennexus")),
     MkState Sample.cargo_tree [] []).
Proof.
  apply (unresolvable_launcher_is_returned Sample.linux_unresolvable
           (MkState Sample.cargo_tree [] []) "/home/u/.cargo/bin/opennexus" ["--help"]).
  - reflexivity.
  - reflexivity.
  - reflexivity.
  - vm_compute. reflexivity.
  - vm_compute. reflexivity.
  - vm_compute. reflexivity.
Defined.

(** ** More on the Launcher *)

(** X5. With a distinct binary on the search path and no acceptable cargo
    entry, [main] calls [os.execv] on that binary with the forwarded
    arguments and leaves the state as it found it: no directory is made,
    nothing is fetched or printed, and the platform table is not consulted. *)
Theorem main_prefers_installed_binary (host : Host) (st : State)
    (argv0 located : string) (rest : list string) :
  argv host = argv0 :: rest →
  (path_exists host (fs st) (cargo_binary host)
   && is_file host (fs st) (cargo_binary host)
   && access_X_OK host (fs st) (cargo_binary host) = false
   ∨ same_canonical_file host (cargo_binary host) (PurePath.of_string argv0)) →
  shutil_which host "opennexus" = Some located →
  located ≠ "" →
  ¬ same_canonical_file host (PurePath.of_string located) (PurePath.of_string argv0) →
  main host st = (Exec (PurePath.of_string located) ("opennexus" :: rest), st).
Proof.
  intros Hargv Hcargo Hwhich Hne Hother.
  unfold main, resolve_binary. py_step.
  rewrite (find_installed_binary_run host st argv0 rest Hargv). cbv zeta.
  assert (Hskip : path_exists host (fs st) (cargo_binary host)
                  && is_file host (fs st) (cargo_binary host)
                  && access_X_OK host (fs st) (cargo_binary host)
                  && negb (_same_file host (cargo_binary host) (PurePath.of_string argv0))
                  = false).
  { destruct Hcargo as [-> | Hsame]; [done|].
    apply same_file_true_iff in Hsame. rewrite Hsame. apply andb_false_r. }
  rewrite Hskip, Hwhich. unfold if_truthy.
  apply String.eqb_neq in Hne. unfold Str.truthy. rewrite Hne. cbn [negb].
  destruct (_same_file host (PurePath.of_string located) (PurePath.of_string argv0)) eqn:Hsame.
  - by apply same_file_true_iff in Hsame.
  - rewrite Hargv. reflexivity.
Qed.

Lemma main_prefers_installed_binary_witness :
  main Sample.linux_installed Sample.empty_state =
    (Exec (PurePath.of_string "/opt/bin/opennexus") ["opennexus"; "build"; "--release"],
     Sample.empty_state).
Proof.
  apply (main_prefers_installed_binary Sample.linux_installed Sample.empty_state
           "/usr/local/bin/opennexus" "/opt/bin/opennexus" ["build"; "--release"]).
  - reflexivity.
  - left. vm_compute. reflexivity.
  - reflexivity.
  - discriminate.
  - intros (c & Hlocated & Hscript). vm_compute in Hlocated, Hscript. congruence.
Defined.

(** X6. With no cargo entry and nothing on the search path, on a platform
    the table does not hold, [main] ends in the unsupported-platform error
    and the state is as it was. *)
Theorem main_unsupported_platform (host : Host) (st : State)
    (argv0 : string) (rest : list string) :
  let system := Str.lower (platform_system host) in
  let machine := Str.lower (platform_machine host) in
  argv host = argv0 :: rest →
  path_exists host (fs st) (cargo_binary host) = false →
  shutil_which host "opennexus" = None →
  targets !! (system, machine) = None →
  main host st =
    (Uncaught (RuntimeError ("Unsupported platform: " +:+ system +:+ "/" +:+ machine)), st).
Proof.
  intros system machine Hargv Hcargo Hwhich Habsent.
  unfold main, resolve_binary. py_step.
  rewrite (find_installed_binary_run host st argv0 rest Hargv). cbv zeta.
  rewrite Hcargo, Hwhich. cbn [andb if_truthy].
  unfold _ensure_managed_binary, _resolve_target. py_step.
  fold system machine. by rewrite Habsent.
Qed.

Lemma main_unsupported_platform_witness :
  main Sample.solaris Sample.empty_state =
    (Uncaught (RuntimeError "Unsupported platform: sunos/sun4v"), Sample.empty_state).
Proof.
  apply (main_unsupported_platform Sample.solaris Sample.empty_state "opennexus" []).
  - reflexivity.
  - vm_compute. reflexivity.
  - reflexivity.
  - vm_compute. reflexivity.
Defined.

(** ** More on the Downloader *)

(** X8. When [urlopen] itself raises, [_download] raises the same exception
    after the one request, and the tree is as it was. *)
Theorem download_propagates_urlopen_error (host : Host) (url : string)
    (destination : Path) (st : State) (e : Exn) :
  urlopen_outcome host url = UrlopenRaises e →
  _download host url destination st =
    (Raise e, MkState (fs st) (requests st ++ [url]) (stderr st)).
Proof.
  intros Hraises. unfold _download. py_step. by rewrite Hraises.
Qed.

Lemma download_propagates_urlopen_error_witness :
  _download Sample.solaris "https://example.org/asset" (MkPath "/" ["tmp"; "x"])
      Sample.empty_state =
    (Raise (URLError "unreachable"), MkState ∅ ["https://example.org/asset"] []).
Proof.
  apply (download_propagates_urlopen_error Sample.solaris "https://example.org/asset"
           (MkPath "/" ["tmp"; "x"]) Sample.empty_state (URLError "unreachable")).
  reflexivity.
Defined.

(** ** More on the Provisioner *)

Section ProvisionerRuns.

Variable host : Host.
Variable st : State.
Variable target : string * string.
Variable tree1 : gmap (list string) Node.

Let binary_path := binary_path_of (_cache_root host) (VERSION host) target.
Let install_dir := install_dir_of (_cache_root host) (VERSION host) target.1.
Let url := asset_url_of host target.
Let announced := MkState tree1 (requests st ++ [url])
                   (stderr st ++ [progress_notice host target.1]).

Hypothesis Htarget : _resolve_target host = Ok target.
Hypothesis Hmkdir : FS.mkdir_parents (getcwd host) install_dir (fs st) = inr tree1.

(** The target is an entry of the table. *)
Lemma resolved_target_in_table :
  targets !! (Str.lower (platform_system host), Str.lower (platform_machine host))
    = Some target.
Proof.
  unfold _resolve_target in Htarget.
  destruct (targets !! _) as [t|]; [|done]. by injection Htarget as ->.
Qed.

(** A run that finds the binary cached. *)
Lemma ensure_managed_binary_hit :
  path_exists host tree1 binary_path && access_X_OK host tree1 binary_path = true →
  _ensure_managed_binary host st
    = (Ok binary_path, MkState tree1 (requests st) (stderr st)).
Proof.
  unfold binary_path, install_dir, binary_path_of in *.
  intros Hhit. unfold _ensure_managed_binary. py_step.
  rewrite Htarget. py_step. rewrite Hmkdir. py_step.
  by rewrite Hhit.
Qed.

(** A run that does not find the binary cached, step by step. *)
Lemma ensure_managed_binary_miss :
  path_exists host tree1 binary_path && access_X_OK host tree1 binary_path = false →
  _ensure_managed_binary host st =
    match urlopen_outcome host url with
    | UrlopenRaises e => (Raise e, announced)
    | Response status body =>
        if negb (http_success status) then (Raise (HTTPError status), announced)
        else if bool_decide (status ≠ 200)
        then (Raise (RuntimeError
                ("Download failed (" +:+ pretty status +:+ ") for " +:+ url)), announced)
        else
          match FS.write_bytes (getcwd host) (umask host) binary_path body tree1 with
          | inl e => (Raise (OSError e), announced)
          | inr tree2 =>
              let written := MkState tree2 (requests announced) (stderr announced) in
              if String.eqb (os_name host) "nt" then (Ok binary_path, written)
              else match FS.chmod (getcwd host) binary_path 493 tree2 with
                   | inl e => (Raise (OSError e), written)
                   | inr tree3 =>
                       (Ok binary_path,
                        MkState tree3 (requests announced) (stderr announced))
                   end
          end
    end.
Proof.
  unfold announced, url, binary_path, install_dir, binary_path_of in *.
  intros Hmiss. unfold _ensure_managed_binary, _download. py_step.
  rewrite Htarget. py_step. rewrite Hmkdir. py_step.
  rewrite Hmiss.
  destruct (urlopen_outcome host _) as [status body|e]; [|done]. py_step.
  destruct (http_success status); cbn [negb]; [|done]. py_step.
  case_bool_decide; [done|]. py_step.
  destruct (FS.write_bytes _ _ _ body tree1) as [e|tree2]; [done|]. py_step.
  destruct (String.eqb (os_name host) "nt"); cbn [negb]; py_step; [done|].
  by destruct (FS.chmod _ _ 493 tree2).
Qed.

End ProvisionerRuns.


(** X7. A download that fails leaves no cached binary behind.  On a miss
    answered by a status other than 200 the Provisioner raises after one
    request and one progress line: [urlopen]'s [HTTPError] for a status
    outside 200..299, the download-failed error for another status of
    200..299.  The tree is the one [mkdir] left, with the install directory
    made and every entry of the start still there.  A second run from that
    state misses again and asks the server again. *)
Theorem failed_download_is_not_cached (host : Host) (st : State)
    (target : string * string) (tree1 : gmap (list string) Node)
    (status : Z) (body : list Byte.byte) :
  let install_dir := install_dir_of (_cache_root host) (VERSION host) target.1 in
  let binary_path := binary_path_of (_cache_root host) (VERSION host) target in
  let url := asset_url_of host target in
  let notice := progress_notice host target.1 in
  let failure :=
    if http_success status
    then RuntimeError ("Download failed (" +:+ pretty status +:+ ") for " +:+ url)
    else HTTPError status in
  _resolve_target host = Ok target →
  FS.mkdir_parents (getcwd host) install_dir (fs st) = inr tree1 →
  path_exists host tree1 binary_path && access_X_OK host tree1 binary_path = false →
  urlopen_outcome host url = Response status body →
  status ≠ 200 →
  _ensure_managed_binary host st
    = (Raise failure, MkState tree1 (requests st ++ [url]) (stderr st ++ [notice]))
  ∧ FS.is_dir (getcwd host) tree1 install_dir = true
  ∧ fs st ⊆ tree1
  ∧ _ensure_managed_binary host
      (MkState tree1 (requests st ++ [url]) (stderr st ++ [notice]))
    = (Raise failure,
       MkState tree1 ((requests st ++ [url]) ++ [url]) ((stderr st ++ [notice]) ++ [notice])).
Proof.
  intros install_dir binary_path url notice failure Htarget Hmkdir Hmiss Hresp Hstatus.
  destruct (mkdir_parents_makes_dir _ _ _ _ Hmkdir) as [Hdir Hsub].
  repeat split; try done.
  - rewrite (ensure_managed_binary_miss host st target tree1 Htarget Hmkdir Hmiss).
    fold url. rewrite Hresp. unfold failure.
    destruct (http_success status); cbn [negb]; [|done].
    by rewrite bool_decide_eq_true_2.
  - apply mkdir_parents_is_dir in Hdir.
    rewrite (ensure_managed_binary_miss host (MkState tree1 _ _) target tree1 Htarget Hdir Hmiss).
    fold url. rewrite Hresp. unfold failure.
    destruct (http_success status); cbn [negb]; [|done].
    by rewrite bool_decide_eq_true_2.
Qed.

Lemma failed_download_is_not_cached_witness :
  let url := "https://github.com/Alpha-Innovation-Labs/opennexus/releases/download/v0.2.0/opennexus-x86_64-unknown-linux-gnu" in
  (_ensure_managed_binary Sample.linux_other Sample.empty_state).1
    = Raise (HTTPError 404)
  ∧ fs (_ensure_managed_binary Sample.linux_other Sample.empty_state).2
    = Sample.linux_dirs.
Proof.
  destruct (failed_download_is_not_cached Sample.linux_other Sample.empty_state
              ("x86_64-unknown-linux-gnu", "opennexus") Sample.linux_dirs 404 [])
    as (Hrun & _).
  - reflexivity.
  - reflexivity.
  - reflexivity.
  - reflexivity.
  - lia.
  - rewrite Hrun. split; reflexivity.
Defined.


(** A pair is its first component with its second. *)
Lemma pair_from_fst {A B : Type} (x : A * B) (a : A) : x.1 = a → x = (a, x.2).
Proof. intros <-. by destruct x. Qed.


(** Runs of the Provisioner that end before the cache is looked at. *)
Lemma ensure_managed_binary_unresolved (host : Host) (st : State) (e : Exn) :
  _resolve_target host = Raise e → _ensure_managed_binary host st = (Raise e, st).
Proof. intros Htarget. unfold _ensure_managed_binary. py_step. by rewrite Htarget. Qed.

Lemma ensure_managed_binary_mkdir_fails (host : Host) (st : State)
    (target : string * string) (e : Errno) :
  _resolve_target host = Ok target →
  FS.mkdir_parents (getcwd host)
    (install_dir_of (_cache_root host) (VERSION host) target.1) (fs st) = inl e →
  _ensure_managed_binary host st = (Raise (OSError e), st).
Proof.
  intros Htarget Hmkdir. unfold _ensure_managed_binary. py_step.
  rewrite Htarget. py_step. by rewrite Hmkdir.
Qed.

(** X12. A run of the Provisioner, however it ends, makes at most one
    request and never a second one: either it fetches nothing and prints
    nothing, or it prints the one progress line and asks once for the asset
    URL of the resolved target. *)
Theorem provisioner_fetches_at_most_once (host : Host) (st : State) :
  let st' := (_ensure_managed_binary host st).2 in
  (requests st' = requests st ∧ stderr st' = stderr st)
  ∨ ∃ target,
      _resolve_target host = Ok target
      ∧ requests st' = requests st ++ [asset_url_of host target]
      ∧ stderr st' = stderr st ++ [progress_notice host target.1].
Proof.
  intros st'. subst st'.
  destruct (_resolve_target host) as [target|e] eqn:Htarget;
    [|left; by rewrite (ensure_managed_binary_unresolved host st e Htarget)].
  destruct (FS.mkdir_parents (getcwd host)
              (install_dir_of (_cache_root host) (VERSION host) target.1) (fs st))
    as [e|tree1] eqn:Hmkdir;
    [left; by rewrite (ensure_managed_binary_mkdir_fails host st target e Htarget Hmkdir)|].
  destruct (path_exists host tree1 (binary_path_of (_cache_root host) (VERSION host) target)
            && access_X_OK host tree1
                 (binary_path_of (_cache_root host) (VERSION host) target)) eqn:Hcached.
  - left. by rewrite (ensure_managed_binary_hit host st target tree1 Htarget Hmkdir Hcached).
  - right. exists target. split; [done|].
    rewrite (ensure_managed_binary_miss host st target tree1 Htarget Hmkdir Hcached).
    cbv zeta.
    destruct (urlopen_outcome host _) as [status body|e]; [|done].
    destruct (negb (http_success status)); [done|].
    case_bool_decide; [done|].
    destruct (FS.write_bytes _ _ _ body tree1) as [e|tree2]; [done|].
    destruct (String.eqb (os_name host) "nt"); [done|].
    by destruct (FS.chmod _ _ 493 tree2).
Qed.

(** The location of a path is looked up in the tree itself. *)
Lemma get_lookup (tree : gmap (list string) Node) (loc : list string) :
  loc ≠ [] → FS.get tree loc = tree !! loc.
Proof. by destruct loc. Qed.

(** What the write of the binary and the [chmod] after it can change. *)
Lemma write_then_chmod_frame (cwd : list string) (umask : Z) (p : Path)
    (body : list Byte.byte) (tree1 tree2 tree3 : gmap (list string) Node) :
  FS.write_bytes cwd umask p body tree1 = inr tree2 →
  tree3 = tree2 ∨ FS.chmod cwd p 493 tree2 = inr tree3 →
  ∀ loc node, tree1 !! loc = Some node →
    tree3 !! loc = Some node
    ∨ (FS.locate cwd tree3 p = inr loc
       ∧ ∃ data mode data' mode',
           node = File data mode ∧ tree3 !! loc = Some (File data' mode')).
Proof.
  intros Hwrite Hlast loc node Hnode.
  apply write_bytes_inv in Hwrite as (l2 & mode & Hloc1 & Hne & Hnd & ->).
  assert (Hloc2 : FS.locate cwd (<[l2 := File body mode]> tree1) p = inr l2).
  { unfold FS.locate in *.
    by apply (walk_keeps_dirs tree1 _ _ _ l2 (insert_keeps_dirs tree1 l2 _ Hne Hnd)). }
  assert (Hget2 : FS.get (<[l2 := File body mode]> tree1) l2 = Some (File body mode)).
  { rewrite get_insert by done. by rewrite decide_True. }
  assert (Hshape : ∃ data' mode',
            tree3 = <[l2 := File data' mode']> (<[l2 := File body mode]> tree1)).
  { destruct Hlast as [-> | Hchmod].
    - exists body, mode. by rewrite insert_insert_eq.
    - apply chmod_inv in Hchmod as [-> | (l3 & data & old & Hloc3 & _ & Hget3 & ->)].
      + exists body, mode. by rewrite insert_insert_eq.
      + rewrite Hloc2 in Hloc3. injection Hloc3 as <-. by exists data, 493. }
  destruct Hshape as (data' & mode' & ->). rewrite insert_insert_eq.
  destruct (decide (l2 = loc)) as [<- | Hother].
  - right. split.
    + unfold FS.locate in *.
      by apply (walk_keeps_dirs tree1 _ _ _ l2 (insert_keeps_dirs tree1 l2 _ Hne Hnd)).
    + rewrite get_lookup in Hnd by done. rewrite lookup_insert_eq.
      destruct node as [data0 mode0|]; [|congruence].
      by exists data0, mode0, data', mode'.
  - left. by rewrite lookup_insert_ne.
Qed.

(** X9. The Provisioner removes nothing and touches one file at most: after
    a run, however it ends, every entry of the tree it started with is still
    there unchanged, except that the file the binary path names may hold
    other bytes and another mode (and is still a file). *)
Theorem provisioner_touches_only_binary (host : Host) (st : State)
    (loc : list string) (node : Node) :
  fs st !! loc = Some node →
  let st' := (_ensure_managed_binary host st).2 in
  fs st' !! loc = Some node
  ∨ ∃ target data mode data' mode',
      _resolve_target host = Ok target
      ∧ FS.locate (getcwd host) (fs st')
          (binary_path_of (_cache_root host) (VERSION host) target) = inr loc
      ∧ node = File data mode
      ∧ fs st' !! loc = Some (File data' mode').
Proof.
  intros Hnode st'. subst st'.
  destruct (_resolve_target host) as [target|e] eqn:Htarget;
    [|left; by rewrite (ensure_managed_binary_unresolved host st e Htarget)].
  destruct (FS.mkdir_parents (getcwd host)
              (install_dir_of (_cache_root host) (VERSION host) target.1) (fs st))
    as [e|tree1] eqn:Hmkdir;
    [left; by rewrite (ensure_managed_binary_mkdir_fails host st target e Htarget Hmkdir)|].
  assert (Hnode1 : tree1 !! loc = Some node).
  { apply mkdir_parents_makes_dir in Hmkdir as [_ Hsub].
    by apply (lookup_weaken (fs st)). }
  set (binary_path := binary_path_of (_cache_root host) (VERSION host) target).
  destruct (path_exists host tree1 binary_path && access_X_OK host tree1 binary_path)
    eqn:Hcached.
  - left. by rewrite (ensure_managed_binary_hit host st target tree1 Htarget Hmkdir Hcached).
  - rewrite (ensure_managed_binary_miss host st target tree1 Htarget Hmkdir Hcached).
    cbv zeta. fold binary_path.
    destruct (urlopen_outcome host _) as [status body|e]; [|by left].
    destruct (negb (http_success status)); [by left|].
    case_bool_decide; [by left|].
    destruct (FS.write_bytes _ _ binary_path body tree1) as [e|tree2] eqn:Hwrite; [by left|].
    assert (Hframe : ∀ tree3,
              tree3 = tree2 ∨ FS.chmod (getcwd host) binary_path 493 tree2 = inr tree3 →
              tree3 !! loc = Some node
              ∨ ∃ target0 data mode data' mode',
                  Ok target = Ok target0
                  ∧ FS.locate (getcwd host) tree3
                      (binary_path_of (_cache_root host) (VERSION host) target0) = inr loc
                  ∧ node = File data mode ∧ tree3 !! loc = Some (File data' mode')).
    { intros tree3 Hlast.
      destruct (write_then_chmod_frame _ _ _ _ _ _ _ Hwrite Hlast loc node Hnode1)
        as [Hsame | (Hloc & data & mode & data' & mode' & -> & Hnew)]; [by left|].
      right. by exists target, data, mode, data', mode'. }
    destruct (String.eqb (os_name host) "nt"); [apply Hframe; by left|].
    destruct (FS.chmod _ binary_path 493 tree2) as [e|tree3] eqn:Hchmod;
      apply Hframe; by auto.
Qed.

Lemma provisioner_touches_only_binary_witness :
  let st' := (_ensure_managed_binary Sample.linux
                (MkState Sample.blocked_tree [] [])).2 in
  fs st' !! ["var"; "cache"] = Some (File [] 420)
  ∨ ∃ target data mode data' mode',
      _resolve_target Sample.linux = Ok target
      ∧ FS.locate (getcwd Sample.linux) (fs st')
          (binary_path_of (_cache_root Sample.linux) (VERSION Sample.linux) target)
        = inr ["var"; "cache"]
      ∧ File [] 420 = File data mode
      ∧ fs st' !! ["var"; "cache"] = Some (File data' mode').
Proof.
  apply (provisioner_touches_only_binary Sample.linux (MkState Sample.blocked_tree [] [])
           ["var"; "cache"] (File [] 420)).
  reflexivity.
Defined.

(** X13. The table gives distinct platforms distinct targets: no two pairs
    share a target triple or an asset name, so they share neither a cache
    directory nor a download URL. *)
Theorem targets_are_distinct (key1 key2 target1 target2 : string * string) :
  targets !! key1 = Some target1 →
  targets !! key2 = Some target2 →
  target1.1 = target2.1 ∨ asset_name_of target1 = asset_name_of target2 →
  key1 = key2.
Proof.
  intros H1 H2 Hshared.
  table_cases H1; table_cases H2; try done;
    destruct Hshared as [Hshared | Hshared]; vm_compute in Hshared; done.
Qed.

Lemma targets_are_distinct_witness :
  ("linux", "aarch64") = (Str.lower "Linux", Str.lower "AArch64").
Proof.
  apply (targets_are_distinct ("linux", "aarch64") (Str.lower "Linux", Str.lower "AArch64")
           ("aarch64-unknown-linux-gnu", "opennexus")
           ("aarch64-unknown-linux-gnu", "opennexus")).
  - reflexivity.
  - reflexivity.
  - left. reflexivity.
Defined.

(** Nothing can be made below a regular file: [os.mkdir] fails with
    [ENOTDIR], and the path is no directory. *)
Lemma os_mkdir_under_file (cwd : list string) (tree : gmap (list string) Node)
    (p : Path) (names : list string) (data : list Byte.byte) (mode : Z) :
  FS.stat cwd tree p = inr (File data mode) →
  names ≠ [] →
  FS.os_mkdir cwd (MkPath (root p) (parts p ++ names)) tree = inl ENOTDIR
  ∧ FS.is_dir cwd tree (MkPath (root p) (parts p ++ names)) = false.
Proof.
  intros Hstat Hnames.
  unfold FS.stat, FS.locate in Hstat.
  destruct (FS.walk tree _ (parts p)) as [e|loc] eqn:Hwalk; [done|].
  destruct (FS.get tree loc) as [n|] eqn:Hget; [|done]. injection Hstat as ->.
  split.
  - unfold FS.os_mkdir, FS.locate_parent. cbn [root parts].
    destruct names as [|name names _] using rev_ind; [done|].
    rewrite app_assoc, rev_unit, rev_involutive, walk_app, Hwalk.
    destruct names as [|n ns]; simpl; by rewrite Hget.
  - unfold FS.is_dir, FS.stat, FS.locate. cbn [root parts].
    rewrite walk_app, Hwalk.
    by rewrite (walk_through_file tree loc names data mode Hget Hnames).
Qed.

(** X14. A regular file in the place of the cache root stops the
    Provisioner before it fetches anything: for a version that is one plain
    path component, the run raises the not-a-directory [OSError] and the
    state is as it was. *)
Theorem cache_root_file_blocks_provisioning (host : Host) (st : State)
    (target : string * string) (data : list Byte.byte) (mode : Z) :
  _resolve_target host = Ok target →
  PurePath.plain_component (VERSION host) →
  FS.stat (getcwd host) (fs st) (_cache_root host) = inr (File data mode) →
  _ensure_managed_binary host st = (Raise (OSError ENOTDIR), st).
Proof.
  intros Htarget Hversion Hstat.
  pose proof (resolved_target_in_table host target Htarget) as Hlook.
  apply targets_plain in Hlook as [Htriple _].
  apply ensure_managed_binary_mkdir_fails with target; [done|].
  unfold install_dir_of. rewrite !joinpath_plain by done. cbn [root parts].
  rewrite <- !app_assoc. cbn [app].
  destruct (os_mkdir_under_file (getcwd host) (fs st) (_cache_root host)
              ["opennexus"; "bin"; VERSION host; target.1] data mode Hstat)
    as [Hmk Hdir]; [done|].
  unfold FS.mkdir_parents. rewrite mkdir_parents_rev_eq. cbv zeta. cbn [root parts].
  rewrite rev_involutive. by rewrite Hmk, Hdir.
Qed.

Lemma cache_root_file_blocks_provisioning_witness :
  _ensure_managed_binary Sample.linux (MkState Sample.blocked_tree [] []) =
    (Raise (OSError ENOTDIR), MkState Sample.blocked_tree [] []).
Proof.
  apply (cache_root_file_blocks_provisioning Sample.linux
           (MkState Sample.blocked_tree [] [])
           ("x86_64-unknown-linux-gnu", "opennexus") [] 420).
  - reflexivity.
  - reflexivity.
  - reflexivity.
Defined.

(** ** More on CacheLocation *)

(** X15. A non-empty value of the variable of the running OS family is the
    cache root, as it is: [XDG_CACHE_HOME] off Windows, [LOCALAPPDATA] on
    Windows.  The home directory and the variable of the other family have no
    say then. *)
Theorem cache_root_from_environment (host : Host) (value : string) :
  value ≠ "" →
  environ host !! (if String.eqb (os_name host) "nt" then "LOCALAPPDATA"
                   else "XDG_CACHE_HOME") = Some value →
  _cache_root host = PurePath.of_string value.
Proof.
  intros Hvalue%String.eqb_neq Hset. unfold _cache_root, if_truthy, Str.truthy.
  destruct (String.eqb (os_name host) "nt"); by rewrite Hset, Hvalue.
Qed.

Lemma cache_root_from_environment_witness :
  _cache_root Sample.linux = PurePath.of_string "/var/cache".
Proof.
  apply (cache_root_from_environment Sample.linux "/var/cache").
  - discriminate.
  - reflexivity.
Defined.

(** ** More on the binary path *)

(** X16. The layout of the managed binary: for a version that is one plain
    path component, the path a run of the Provisioner returns has the root
    of the cache root and its components followed by [opennexus], [bin], the
    version, the target triple and the binary name. *)
Theorem managed_binary_layout (host : Host) (st st' : State) (p : Path) :
  PurePath.plain_component (VERSION host) →
  _ensure_managed_binary host st = (Ok p, st') →
  ∃ target_triple binary_name,
    _resolve_target host = Ok (target_triple, binary_name)
    ∧ root p = root (_cache_root host)
    ∧ parts p = parts (_cache_root host)
                  ++ ["opennexus"; "bin"; VERSION host; target_triple; binary_name].
Proof.
  intros Hversion Hrun.
  apply ensure_managed_binary_Ok in Hrun as (target & _ & Htarget & -> & _).
  pose proof (resolved_target_in_table host target Htarget) as Hlook.
  rewrite (binary_path_layout _ _ _ _ Hversion Hlook).
  exists target.1, target.2. by destruct target.
Qed.

Lemma managed_binary_layout_witness :
  ∃ target_triple binary_name,
    _resolve_target Sample.windows = Ok (target_triple, binary_name)
    ∧ root (MkPath "/" ["Users"; "u"; "AppData"; "Local"; "opennexus"; "bin"; "0.1.5";
                        "x86_64-pc-windows-msvc"; "opennexus.exe"])
      = root (_cache_root Sample.windows)
    ∧ parts (MkPath "/" ["Users"; "u"; "AppData"; "Local"; "opennexus"; "bin"; "0.1.5";
                         "x86_64-pc-windows-msvc"; "opennexus.exe"])
      = parts (_cache_root Sample.windows)
          ++ ["opennexus"; "bin"; VERSION Sample.windows; target_triple; binary_name].
Proof.
  apply (managed_binary_layout Sample.windows Sample.empty_state
           (_ensure_managed_binary Sample.windows Sample.empty_state).2).
  - reflexivity.
  - apply pair_from_fst. reflexivity.
Defined.
